(** * enn.supervised.multiloss_experiment: an SGD experiment with several losses

    A shallow embedding of [src/enn/supervised/multiloss_experiment.py].

    The Python module drives one shared [TrainingState] with several
    (loss, dataset, schedule) triples.  The numerical collaborators (JAX,
    Haiku, Optax, the datasets) are opaque to the module, so they are
    gathered in the [Backend] class; the orchestration code (the
    constructor, [sgd_step], [train], [predict], [loss], [_purify_trainers])
    is translated statement by statement. *)

From Stdlib Require Import ZArith.
From stdpp Require Import gmap strings list fin_maps.

Local Open Scope Z_scope.

(** ** Values stored in a metrics record

    A loss function returns [Dict[str, Array]]; [train] then adds a string
    (['dataset'], ['trainer']), an int (['step']) and a bool (['sgd']) to the
    same dict before it is handed to the logger. *)
Inductive Value (Array : Type) : Type :=
  | VArray (a : Array)
  | VStr (s : string)
  | VInt (z : Z)
  | VBool (b : bool).
Arguments VArray {Array} a.
Arguments VStr {Array} s.
Arguments VInt {Array} z.
Arguments VBool {Array} b.

(** Dataset iterators are Python objects that several trainers (and the
    evaluation mapping) may share, so they live in a heap and are named by
    handles. *)
Abbreviation Handle := positive (only parsing).

(** ** The collaborators

    Everything the module imports and treats as a black box. *)
Class Backend := {
  HkParams : Type;            (* hk.Params *)
  OptState : Type;            (* optax.OptState *)
  Grads : Type;               (* what jax.value_and_grad returns as gradient *)
  Updates : Type;             (* what optimizer.update returns *)
  Batch : Type;               (* base.Batch *)
  Array : Type;               (* base.Array *)
  RngKey : Type;              (* base.RngKey *)
  Index : Type;               (* the index produced by enn.indexer *)
  PRNGSequence : Type;        (* hk.PRNGSequence *)
  BatchIterator : Type;       (* the internal state of a base.BatchIterator *)
  batch_x : Batch -> Array;                               (* batch.x *)
  PRNGKey : Z -> RngKey;                                  (* jax.random.PRNGKey *)
  prng_sequence : Z -> PRNGSequence;                      (* hk.PRNGSequence(seed) *)
  prng_next : PRNGSequence -> RngKey * PRNGSequence;      (* next(rng) *)
  iter_next : BatchIterator -> option (Batch * BatchIterator);
                                          (* next(dataset); None: StopIteration *)
  apply_updates : HkParams -> Updates -> HkParams;        (* optax.apply_updates *)
  grad : (HkParams -> Batch -> RngKey -> Array * gmap string (Value Array)) ->
         HkParams -> Batch -> RngKey -> Grads;
                      (* the gradient half of jax.value_and_grad(f, has_aux=True) *)
}.

Section MultilossExperiment.
Context `{B : Backend}.

Abbreviation LossMetrics := (gmap string (Value Array)).

(** [class TrainingState(NamedTuple)] *)
Record TrainingState := {
  params : HkParams;
  opt_state : OptState;
}.

(** [base.EpistemicNetwork]: the three members the module calls. *)
Record EpistemicNetwork := {
  apply : HkParams -> Array -> Index -> Array;
  init : RngKey -> Array -> Index -> HkParams;
  indexer : RngKey -> Index;
}.

(** [optax.GradientTransformation] *)
Record GradientTransformation := {
  opt_init : HkParams -> OptState;
  update : Grads -> OptState -> Updates * OptState;
}.

(** [PureLoss]: the loss after the network has been bound.  The alias in the
    source is annotated as returning [base.Array], but both call sites
    ([has_aux=True] in [sgd_step] and [loss, metrics = t.pure_loss(...)] in
    [train]) use it as returning the pair (loss, metrics). *)
Definition PureLoss : Type := HkParams -> Batch -> RngKey -> Array * LossMetrics.

(** [base.LossFn] *)
Definition LossFn : Type := EpistemicNetwork -> PureLoss.

(** [@dataclass class MultilossTrainer] *)
Record MultilossTrainer := {
  loss_fn : LossFn;
  trainer_dataset : Handle;
  trainer_should_train : Z -> bool;
  trainer_name : string;
}.

(** [@dataclass class _PureTrainer] *)
Record _PureTrainer := {
  pure_loss : PureLoss;
  dataset : Handle;
  should_train : Z -> bool;
  name : string;
}.

(** [_purify_trainers]: [functools.partial(t.loss_fn, enn)] binds the first
    argument; the other three fields are copied. *)
Definition _purify_trainers (trainers : list MultilossTrainer)
    (enn : EpistemicNetwork) : list _PureTrainer :=
  (fun t => {| pure_loss := loss_fn t enn;
               dataset := trainer_dataset t;
               should_train := trainer_should_train t;
               name := trainer_name t |}) <$> trainers.

(** ** The experiment object

    The attributes that [__init__] binds once and no method rebinds. *)
Record MultilossExperiment := {
  enn : EpistemicNetwork;
  pure_trainers : list _PureTrainer;
  optimizer : GradientTransformation;       (* captured by [sgd_step] *)
  _eval_datasets : option (list (string * Handle));
                         (* Optional[Dict[str, BatchIterator]], insertion order *)
  _eval_log_freq : Z;
  _train_log_freq : Z;
}.

(** The attributes that [train] rebinds ([rng] is advanced in place), and the
    heap of dataset iterators the experiment draws from. *)
Record Store := {
  rng : PRNGSequence;
  state : TrainingState;
  step : Z;
  iterators : gmap Handle BatchIterator;
}.

(** ** Effects

    What the experiment does to its collaborators, in program order.  The
    [nat] of [SgdStep] and [EvalLoss] is the position of the trainer in
    [pure_trainers]. *)
Inductive Effect :=
  | NextBatch (h : Handle) (b : Batch)             (* next(dataset) returned b *)
  | NextKey (k : RngKey)                           (* next(self.rng) returned k *)
  | SgdStep (i : nat) (b : Batch) (k : RngKey)     (* self._sgd_step(t.pure_loss, ..) *)
  | EvalLoss (i : nat) (b : Batch) (k : RngKey)    (* t.pure_loss(..), no gradient *)
  | LoggerWrite (r : LossMetrics).                 (* self.logger.write(r) *)

(** The exceptions the module itself can provoke. *)
Inductive Exn :=
  | IndexError             (* self.pure_trainers[0] on an empty tuple *)
  | ZeroDivisionError      (* self.step % 0 *)
  | StopIteration          (* next() on an exhausted iterator *)
  | TypeError.             (* next() on something that is not an iterator *)

(** ** A state, exception and trace monad

    A raised exception keeps the store as it was when it was raised, and the
    effects performed before it. *)
Record Outcome (A : Type) := {
  result : Exn + A;
  final : Store;
  effects : list Effect;
}.
Arguments result {A} o.
Arguments final {A} o.
Arguments effects {A} o.

Definition M (A : Type) : Type := Store -> Outcome A.

Definition ret {A} (a : A) : M A :=
  fun s => {| result := inr a; final := s; effects := [] |}.

Definition bind {A C} (m : M A) (f : A -> M C) : M C :=
  fun s =>
    let o := m s in
    match result o with
    | inl e => {| result := inl e; final := final o; effects := effects o |}
    | inr a =>
      let o' := f a (final o) in
      {| result := result o'; final := final o';
         effects := effects o ++ effects o' |}
    end.

Definition raise {A} (e : Exn) : M A :=
  fun s => {| result := inl e; final := s; effects := [] |}.

Definition tell (e : Effect) : M unit :=
  fun s => {| result := inr tt; final := s; effects := [e] |}.

Definition gets {A} (f : Store -> A) : M A :=
  fun s => {| result := inr (f s); final := s; effects := [] |}.

Definition modify (f : Store -> Store) : M unit :=
  fun s => {| result := inr tt; final := f s; effects := [] |}.

Notation "x <- m ;; k" := (bind m (fun x => k))
  (at level 63, m at next level, right associativity, only parsing).
Notation "m ;;; k" := (bind m (fun _ => k))
  (at level 63, right associativity, only parsing).

(** [for x in l: body(x)] *)
Fixpoint for_each {A} (l : list A) (body : A -> M unit) : M unit :=
  match l with
  | [] => ret tt
  | x :: l' => body x ;;; for_each l' body
  end.

(** [for _ in range(n): body] *)
Fixpoint repeat_ (n : nat) (body : M unit) : M unit :=
  match n with
  | O => ret tt
  | S n' => body ;;; repeat_ n' body
  end.

(** [a % b] on Python ints: floor modulo, [ZeroDivisionError] when [b] is 0. *)
Definition py_mod (a b : Z) : M Z :=
  if decide (b = 0) then raise ZeroDivisionError else ret (a mod b).

(** [next(dataset)] on the iterator behind handle [h]. *)
Definition draw (h : Handle) (its : gmap Handle BatchIterator)
    : Exn + (Batch * gmap Handle BatchIterator) :=
  match its !! h with
  | None => inl TypeError
  | Some it =>
    match iter_next it with
    | None => inl StopIteration
    | Some (b, it') => inr (b, <[h := it']> its)
    end
  end.

Definition next_batch (h : Handle) : M Batch :=
  fun s =>
    match draw h (iterators s) with
    | inl e => {| result := inl e; final := s; effects := [] |}
    | inr (b, its) =>
      {| result := inr b;
         final := {| rng := rng s; state := state s; step := step s;
                     iterators := its |};
         effects := [NextBatch h b] |}
    end.

(** [next(self.rng)] *)
Definition next_rng : M RngKey :=
  fun s =>
    let '(k, r) := prng_next (rng s) in
    {| result := inr k;
       final := {| rng := r; state := state s; step := step s;
                   iterators := iterators s |};
       effects := [NextKey k] |}.

Definition set_state (st : TrainingState) : Store -> Store :=
  fun s => {| rng := rng s; state := st; step := step s;
              iterators := iterators s |}.

Definition set_step (n : Z) : Store -> Store :=
  fun s => {| rng := rng s; state := state s; step := n;
              iterators := iterators s |}.

(** [self.logger.write(record)] *)
Definition logger_write (r : LossMetrics) : M unit := tell (LoggerWrite r).

(** [d.update({k1: v1, ...})]: later writes win. *)
Definition dict_update (d : LossMetrics) (kvs : list (string * Value Array))
    : LossMetrics :=
  foldl (fun d kv => <[kv.1 := kv.2]> d) d kvs.

(** [jax.value_and_grad(f, has_aux=True)(params, batch, key)]: the value
    and the auxiliary output are those of the single evaluation of [f]. *)
Definition value_and_grad (f : PureLoss) (p : HkParams) (b : Batch) (k : RngKey)
    : (Array * LossMetrics) * Grads :=
  (f p b k, grad f p b k).

(** The closure [sgd_step] defined in [__init__]; [optimizer] is the
    constructor argument it captures. *)
Definition sgd_step (optimizer : GradientTransformation)
    (pure_loss : PureLoss) (state : TrainingState) (batch : Batch)
    (key : RngKey) : TrainingState * LossMetrics :=
  let '((loss, metrics), grads) :=
    value_and_grad pure_loss (params state) batch key in
  let metrics := dict_update metrics [("loss"%string, VArray loss)] in
  let '(updates, new_opt_state) := update optimizer grads (opt_state state) in
  let new_params := apply_updates (params state) updates in
  let new_state := {| params := new_params; opt_state := new_opt_state |} in
  (new_state, metrics).

(** [self._sgd_step = jax.jit(sgd_step, static_argnums=0)] *)
Definition _sgd_step (self : MultilossExperiment) :=
  sgd_step (optimizer self).

(** The closure [forward] defined in [__init__]. *)
Definition _forward (self : MultilossExperiment)
    (params : HkParams) (inputs : Array) (key : RngKey) : Array :=
  let index := indexer (enn self) key in
  apply (enn self) params inputs index.

(** [MultilossExperiment.__init__].  The logger argument is the sink of the
    [LoggerWrite] effects and is not stored.  An exception leaves the
    iterators as they were: the only draw is the failing one. *)
Definition __init__ (enn : EpistemicNetwork) (trainers : list MultilossTrainer)
    (optimizer : GradientTransformation) (seed : Z) (train_log_freq : Z)
    (eval_datasets : option (list (string * Handle))) (eval_log_freq : Z)
    (its : gmap Handle BatchIterator)
    : Exn + (MultilossExperiment * Store) :=
  let pure_trainers := _purify_trainers trainers enn in
  let rng := prng_sequence seed in
  match pure_trainers with
  | [] => inl IndexError
  | t0 :: _ =>
    match draw (dataset t0) its with
    | inl e => inl e
    | inr (batch, its') =>
      let '(k1, rng) := prng_next rng in
      let index := indexer enn k1 in
      let '(k2, rng) := prng_next rng in
      let params := init enn k2 (batch_x batch) index in
      let opt_state := opt_init optimizer params in
      inr ({| enn := enn; pure_trainers := pure_trainers;
              optimizer := optimizer; _eval_datasets := eval_datasets;
              _eval_log_freq := eval_log_freq;
              _train_log_freq := train_log_freq |},
           {| rng := rng;
              state := {| params := params; opt_state := opt_state |};
              step := 0; iterators := its' |})
    end
  end.

(** Truth value of an [Optional[Dict]]: [None] and [{}] are false. *)
Definition truthy {A} (d : option (list A)) : bool :=
  match d with
  | None | Some [] => false
  | Some (_ :: _) => true
  end.

(** [d.items()] once [d] is known to be a dict. *)
Definition items {A} (d : option (list A)) : list A := default [] d.

(** [enumerate(self.pure_trainers)]: each trainer with its position. *)
Definition enumerate {A} (l : list A) : list (nat * A) := imap pair l.

(** Lines 129-141 of [train]: the body of [for t in self.pure_trainers]. *)
Definition train_trainer (self : MultilossExperiment)
    (it : nat * _PureTrainer) : M unit :=
  let '(i, t) := it in
  n <- gets step ;;
  if should_train t n then
    st <- gets state ;;
    batch <- next_batch (dataset t) ;;
    key <- next_rng ;;
    tell (SgdStep i batch key) ;;;
    let '(new_state, loss_metrics) :=
      _sgd_step self (pure_loss t) st batch key in
    modify (set_state new_state) ;;;
    r <- py_mod n (_train_log_freq self) ;;
    if decide (r = 0) then
      logger_write (dict_update loss_metrics
        [("dataset"%string, VStr "train"); ("step"%string, VInt n);
         ("sgd"%string, VBool true); ("trainer"%string, VStr (name t))])
    else ret tt
  else ret tt.

(** Lines 146-156 of [train]: the body of the inner evaluation loop. *)
Definition eval_trainer (ds_name : string) (h : Handle)
    (it : nat * _PureTrainer) : M unit :=
  let '(i, t) := it in
  st <- gets state ;;
  batch <- next_batch h ;;
  key <- next_rng ;;
  tell (EvalLoss i batch key) ;;;
  let '(loss, metrics) := pure_loss t (params st) batch key in
  n <- gets step ;;
  logger_write (dict_update metrics
    [("dataset"%string, VStr ds_name); ("step"%string, VInt n);
     ("sgd"%string, VBool false); ("loss"%string, VArray loss);
     ("trainer"%string, VStr (name t))]).

(** Lines 144-156 of [train]: [and] does not evaluate the modulo when the
    mapping is [None] or empty. *)
Definition evaluate (self : MultilossExperiment) : M unit :=
  if truthy (_eval_datasets self) then
    n <- gets step ;;
    r <- py_mod n (_eval_log_freq self) ;;
    if decide (r = 0) then
      for_each (items (_eval_datasets self)) (fun '(ds_name, h) =>
        for_each (enumerate (pure_trainers self)) (eval_trainer ds_name h))
    else ret tt
  else ret tt.

(** Lines 127-156 of [train]: the body of [for _ in range(num_batches)]. *)
Definition train_step (self : MultilossExperiment) : M unit :=
  n <- gets step ;;
  modify (set_step (n + 1)) ;;;
  for_each (enumerate (pure_trainers self)) (train_trainer self) ;;;
  evaluate self.

(** [MultilossExperiment.train]; [range] of a negative int is empty. *)
Definition train (self : MultilossExperiment) (num_batches : Z) : M unit :=
  repeat_ (Z.to_nat num_batches) (train_step self).

(** [MultilossExperiment.predict] *)
Definition predict (self : MultilossExperiment) (inputs : Array) (seed : Z)
    : M Array :=
  st <- gets state ;;
  ret (_forward self (params st) inputs (PRNGKey seed)).

(** [MultilossExperiment.loss]: returns what [pure_loss] returns. *)
Definition loss (self : MultilossExperiment) (batch : Batch) (seed : Z)
    : M (Array * LossMetrics) :=
  match pure_trainers self with
  | [] => raise IndexError
  | t0 :: _ =>
    st <- gets state ;;
    let key := PRNGKey seed in
    tell (EvalLoss 0 batch key) ;;;
    ret (pure_loss t0 (params st) batch key)
  end.

End MultilossExperiment.

Notation "x <- m ;; k" := (bind m (fun x => k))
  (at level 63, m at next level, right associativity, only parsing).
Notation "m ;;; k" := (bind m (fun _ => k))
  (at level 63, right associativity, only parsing).

Arguments result {B A} o.
Arguments final {B A} o.
Arguments effects {B A} o.

Abbreviation LossMetrics := (gmap string (Value Array)).

(** ** A small concrete backend

    Integers everywhere: a dataset is the list of batches it still holds, the
    random stream is a counter, the gradient is a forward difference. *)
Module Toy.

#[export] Instance backend : Backend := {|
  HkParams := Z; OptState := Z; Grads := Z; Updates := Z; Batch := Z;
  Array := Z; RngKey := Z; Index := Z; PRNGSequence := Z;
  BatchIterator := list Z;
  batch_x := fun b => b;
  PRNGKey := fun seed => seed;
  prng_sequence := fun seed => 100 * seed;
  prng_next := fun r => (r + 1, r + 1);
  iter_next := fun l => match l with [] => None | b :: l' => Some (b, l') end;
  apply_updates := fun p u => p + u;
  grad := fun f p b k => (f (p + 1) b k).1 - (f p b k).1;
|}.

Definition net : EpistemicNetwork :=
  {| apply := fun p x i => p * x + i;
     init := fun k x i => x + i;
     indexer := fun k => k mod 2 |}.

(** Plain gradient descent that counts its updates. *)
Definition sgd : GradientTransformation :=
  {| opt_init := fun _ => 0;
     update := fun g o => (- g, o + 1) |}.

(** A loss whose raw metrics already hold a ["loss"] entry. *)
Definition square_loss : LossFn :=
  fun enn p b k =>
    let out := apply enn p b (indexer enn k) in
    (out * out, {[ "loss"%string := VInt 999; "out"%string := VArray out ]}).

(** Two trainers left with the default name and bound to one iterator:
    one scheduled at every step, one at none. *)
Definition always : MultilossTrainer :=
  {| loss_fn := square_loss; trainer_dataset := 1%positive;
     trainer_should_train := fun _ => true; trainer_name := "loss" |}.

Definition never : MultilossTrainer :=
  {| loss_fn := square_loss; trainer_dataset := 1%positive;
     trainer_should_train := fun _ => false; trainer_name := "loss" |}.

(** An unscheduled trainer with a name and an iterator of its own. *)
Definition prior : MultilossTrainer :=
  {| loss_fn := square_loss; trainer_dataset := 3%positive;
     trainer_should_train := fun _ => false; trainer_name := "prior" |}.

Definition heap : gmap Handle (list Z) :=
  {[ 1%positive := [1; 2; 3; 4; 5; 6; 7; 8; 9; 10; 11; 12];
     2%positive := [20; 21; 22; 23; 24; 25; 26; 27; 28; 29];
     3%positive := [30; 31] ]}.

Definition pure_always : _PureTrainer :=
  {| pure_loss := square_loss net; dataset := 1%positive;
     should_train := fun _ => true; name := "loss" |}.

Definition pure_never : _PureTrainer :=
  {| pure_loss := square_loss net; dataset := 1%positive;
     should_train := fun _ => false; name := "loss" |}.

Definition pure_prior : _PureTrainer :=
  {| pure_loss := square_loss net; dataset := 3%positive;
     should_train := fun _ => false; name := "prior" |}.

(** What [__init__] builds from [always; never], seed 0, one evaluation
    dataset looked at every second step, and logging frequency [tlf]. *)
Definition experiment (tlf : Z) : MultilossExperiment :=
  {| enn := net; pure_trainers := [pure_always; pure_never];
     optimizer := sgd; _eval_datasets := Some [("eval"%string, 2%positive)];
     _eval_log_freq := 2; _train_log_freq := tlf |}.

(** The same with [prior] in place of [never]. *)
Definition separate : MultilossExperiment :=
  {| enn := net; pure_trainers := [pure_always; pure_prior];
     optimizer := sgd; _eval_datasets := Some [("eval"%string, 2%positive)];
     _eval_log_freq := 2; _train_log_freq := 1 |}.

(** The store after construction: one batch and two keys are used up. *)
Definition store0 : Store :=
  {| rng := 2; state := {| params := 2; opt_state := 0 |}; step := 0;
     iterators :=
       <[1%positive := [2; 3; 4; 5; 6; 7; 8; 9; 10; 11; 12]]> heap |}.

(** The store in which the first training step runs its trainers. *)
Definition store1 : Store := set_step 1 store0.

(** The record the first SGD step writes: parameters 2, batch 2 and key 3
    give the output 2 * 2 + 1 and the loss 25. *)
Definition first_record : gmap string (Value Z) :=
  {[ "dataset"%string := VStr "train"; "loss"%string := VArray 25;
     "out"%string := VArray 5; "sgd"%string := VBool true;
     "step"%string := VInt 1; "trainer"%string := VStr "loss" ]}.

(** [experiment tlf] with the evaluation frequency 0. *)
Definition zero_eval_freq : MultilossExperiment :=
  {| enn := net; pure_trainers := [pure_always; pure_never];
     optimizer := sgd; _eval_datasets := Some [("eval"%string, 2%positive)];
     _eval_log_freq := 0; _train_log_freq := 1 |}.

(** An experiment none of whose trainers is ever scheduled, evaluated at
    every step. *)
Definition idle_only : MultilossExperiment :=
  {| enn := net; pure_trainers := [pure_never; pure_prior];
     optimizer := sgd; _eval_datasets := Some [("eval"%string, 2%positive)];
     _eval_log_freq := 1; _train_log_freq := 1 |}.

(** The record an evaluation of the first trainer writes in [store1]:
    parameters 2, batch 20 and key 3 give the output 41. *)
Definition eval_record : gmap string (Value Z) :=
  {[ "dataset"%string := VStr "eval"; "loss"%string := VArray 1681;
     "out"%string := VArray 41; "sgd"%string := VBool false;
     "step"%string := VInt 1; "trainer"%string := VStr "loss" ]}.

End Toy.

(** ** Reading the trace *)
Section Trace.
Context `{B : Backend}.

(** A record written by the training branch carries ['sgd': True], one
    written by the evaluation branch ['sgd': False]. *)
Definition is_train_record (r : LossMetrics) : bool :=
  match r !! "sgd"%string with Some (VBool true) => true | _ => false end.

Definition is_eval_record (r : LossMetrics) : bool :=
  match r !! "sgd"%string with Some (VBool false) => true | _ => false end.

(** The tags of a record: dataset, step, sgd, trainer. *)
Definition tags (r : LossMetrics)
    : option (Value Array) * option (Value Array) *
      option (Value Array) * option (Value Array) :=
  (r !! "dataset"%string, r !! "step"%string,
   r !! "sgd"%string, r !! "trainer"%string).

(** Tags of the evaluation records of a trace. *)
Definition eval_log (effs : list Effect) :=
  omap (fun e => match e with
                 | LoggerWrite r => if is_eval_record r then Some (tags r) else None
                 | _ => None
                 end) effs.

(** Keys that were drawn and handed to the loss of the trainer at
    position [i], by an SGD step or by an evaluation. *)
Definition keys_for (i : nat) (effs : list Effect) : list RngKey :=
  omap (fun e => match e with
                 | SgdStep j _ k | EvalLoss j _ k =>
                   if decide (j = i) then Some k else None
                 | _ => None
                 end) effs.

(** What the tags of an evaluation record must be. *)
Definition eval_tags (ds_name : string) (n : Z) (t : _PureTrainer) :=
  (Some (VStr ds_name : Value Array), Some (VInt n : Value Array),
   Some (VBool false : Value Array), Some (VStr (name t) : Value Array)).

(** The evaluation records due at step [n]. *)
Definition evals_at (self : MultilossExperiment) (n : Z) :=
  if truthy (_eval_datasets self) && bool_decide (n mod _eval_log_freq self = 0)
  then items (_eval_datasets self) ≫= fun '(ds_name, _) =>
         eval_tags ds_name n <$> pure_trainers self
  else [].

(** The evaluation records due over the [n] steps that follow step [k]. *)
Fixpoint evals_after (self : MultilossExperiment) (k : Z) (n : nat) :=
  match n with
  | O => []
  | S n' => evals_at self (k + 1) ++ evals_after self (k + 1) n'
  end.

(** The states after each of [n] successive calls [train(1)], up to the
    first call that raises. *)
Fixpoint state_sequence (self : MultilossExperiment) (n : nat) (s : Store)
    : list TrainingState :=
  match n with
  | O => []
  | S n' =>
    let o := train self 1 s in
    match result o with
    | inl _ => []
    | inr _ => state (final o) :: state_sequence self n' (final o)
    end
  end.

(** A trainer that costs nothing over [N] steps: no batch from its
    dataset, no key for its loss, no SGD step with its loss, no training
    record under its name. *)
Definition never_involved (self : MultilossExperiment) (s : Store) (i : nat)
    (t : _PureTrainer) (N : Z) : Prop :=
  let effs := effects (train self N s) in
  (forall batch, NextBatch (dataset t) batch ∉ effs) /\
  keys_for i effs = [] /\
  (forall batch key, SgdStep i batch key ∉ effs) /\
  (forall r, LoggerWrite r ∈ effs -> is_train_record r = true ->
     r !! "trainer"%string <> Some (VStr (name t))).

(** Calls of the two read-only methods. *)
Inductive Query :=
  | QPredict (inputs : Array) (seed : Z)
  | QLoss (batch : Batch) (seed : Z).

(** One call whose return value, or exception, the caller drops. *)
Definition query (self : MultilossExperiment) (q : Query) : M unit :=
  fun s =>
    let o := match q with
             | QPredict inputs seed =>
               let o := predict self inputs seed s in
               {| result := inr tt; final := final o; effects := effects o |}
             | QLoss batch seed =>
               let o := loss self batch seed s in
               {| result := inr tt; final := final o; effects := effects o |}
             end in o.

End Trace.

(** ** Predicates on stores, effects and outcomes *)
Section Predicates.
Context `{B : Backend}.

(** The experiment with another logging frequency, everything else kept. *)
Definition set_train_log_freq (self : MultilossExperiment) (tlf : Z)
    : MultilossExperiment :=
  {| enn := enn self; pure_trainers := pure_trainers self;
     optimizer := optimizer self; _eval_datasets := _eval_datasets self;
     _eval_log_freq := _eval_log_freq self; _train_log_freq := tlf |}.

(** The experiment with another evaluation mapping, everything else kept. *)
Definition set_eval_datasets (self : MultilossExperiment)
    (eds : option (list (string * Handle))) : MultilossExperiment :=
  {| enn := enn self; pure_trainers := pure_trainers self;
     optimizer := optimizer self; _eval_datasets := eds;
     _eval_log_freq := _eval_log_freq self;
     _train_log_freq := _train_log_freq self |}.

(** [m] keeps the store invariant [I] and only performs effects in [Q],
    whether it returns or raises. *)
Definition preserves {A} (I : Store -> Prop) (Q : Effect -> Prop) (m : M A)
    : Prop :=
  forall s, I s -> I (final (m s)) /\ Forall Q (effects (m s)).

(** Effects that only evaluate a loss. *)
Definition is_eval_loss (e : Effect) : Prop :=
  match e with EvalLoss _ _ _ => True | _ => False end.

(** What the training branch for the trainer at position [j] may do at
    step [n]. *)
Definition train_effect (j : nat) (t : _PureTrainer) (n : Z) (e : Effect) : Prop :=
  match e with
  | NextBatch h _ => h = dataset t
  | NextKey _ => True
  | SgdStep j' _ _ => j' = j
  | EvalLoss _ _ _ => False
  | LoggerWrite r =>
    tags r = (Some (VStr "train"), Some (VInt n), Some (VBool true),
              Some (VStr (name t)))
  end.

(** What the evaluation of the trainer at position [j] on the dataset
    [ds_name], held by [h], may do at step [n]. *)
Definition eval_effect (ds_name : string) (h : Handle) (j : nat)
    (t : _PureTrainer) (n : Z) (e : Effect) : Prop :=
  match e with
  | NextBatch h' _ => h' = h
  | NextKey _ => True
  | SgdStep _ _ _ => False
  | EvalLoss j' _ _ => j' = j
  | LoggerWrite r => tags r = eval_tags ds_name n t
  end.

(** Effects other than an SGD step. *)
Definition not_sgd_step (e : Effect) : Prop :=
  match e with SgdStep _ _ _ => False | _ => True end.

(** Effects that are neither an SGD step of trainer [i] nor, when no
    evaluation dataset is configured, an evaluation at all. *)
Definition off_duty (self : MultilossExperiment) (i : nat) (e : Effect)
    : Prop :=
  match e with
  | SgdStep j _ _ => j <> i
  | EvalLoss _ _ _ => truthy (_eval_datasets self) = true
  | _ => True
  end.

(** Effects that do not touch the dataset of [t]. *)
Definition hands_off (t : _PureTrainer) (e : Effect) : Prop :=
  match e with NextBatch h _ => h <> dataset t | _ => True end.

(** Effects that write no training record under the name of [t]. *)
Definition other_name (t : _PureTrainer) (e : Effect) : Prop :=
  match e with
  | LoggerWrite r =>
    is_train_record r = true -> r !! "trainer"%string <> Some (VStr (name t))
  | _ => True
  end.

(** The projection behind [eval_log]. *)
Definition eval_pi (e : Effect) :=
  match e with
  | LoggerWrite r => if is_eval_record r then Some (tags r) else None
  | _ => None
  end.

(** Effects that are no part of an evaluation round. *)
Definition not_eval (e : Effect) : Prop :=
  match e with
  | EvalLoss _ _ _ => False
  | LoggerWrite r => is_eval_record r = false
  | _ => True
  end.

(** Two outcomes with the same result and the same final store; their
    traces may differ. *)
Definition same_run {A} (o1 o2 : Outcome A) : Prop :=
  result o1 = result o2 /\ final o1 = final o2.

End Predicates.

(** ** Schedules and the use of keys and batches *)
Section Schedules.
Context `{B : Backend}.

(** The keys drawn from the shared stream, in order. *)
Definition drawn_keys (effs : list Effect) : list RngKey :=
  omap (fun e => match e with NextKey k => Some k | _ => None end) effs.

(** The keys handed to a loss, by an SGD step or an evaluation, in order. *)
Definition used_keys (effs : list Effect) : list RngKey :=
  omap (fun e => match e with
                 | SgdStep _ _ k | EvalLoss _ _ k => Some k
                 | _ => None
                 end) effs.

(** The batches drawn from the datasets, in order. *)
Definition drawn_batches (effs : list Effect) : list Batch :=
  omap (fun e => match e with NextBatch _ b => Some b | _ => None end) effs.

(** The batches handed to a loss, in order. *)
Definition used_batches (effs : list Effect) : list Batch :=
  omap (fun e => match e with
                 | SgdStep _ b _ | EvalLoss _ b _ => Some b
                 | _ => None
                 end) effs.

(** [n] successive draws [next(rng)]: the keys and the stream left. *)
Fixpoint advance (n : nat) (r : PRNGSequence) : list RngKey * PRNGSequence :=
  match n with
  | O => ([], r)
  | S n' =>
    let '(k, r') := prng_next r in
    let '(ks, r'') := advance n' r' in
    (k :: ks, r'')
  end.

(** What the tags of a training record must be. *)
Definition train_tags (n : Z) (t : _PureTrainer) :=
  (Some (VStr "train" : Value Array), Some (VInt n : Value Array),
   Some (VBool true : Value Array), Some (VStr (name t) : Value Array)).

(** Tags of the training records of a trace. *)
Definition train_log (effs : list Effect) :=
  omap (fun e => match e with
                 | LoggerWrite r => if is_train_record r then Some (tags r) else None
                 | _ => None
                 end) effs.

(** The training records due at step [n]: one per scheduled trainer, in
    list order, when [n] is a multiple of the logging frequency. *)
Definition trains_at (self : MultilossExperiment) (n : Z) :=
  pure_trainers self ≫= fun t =>
    if should_train t n && bool_decide (n mod _train_log_freq self = 0)
    then [train_tags n t] else [].

(** The training records due over the [n] steps that follow step [k]. *)
Fixpoint trains_after (self : MultilossExperiment) (k : Z) (n : nat) :=
  match n with
  | O => []
  | S n' => trains_at self (k + 1) ++ trains_after self (k + 1) n'
  end.

(** [m] relates the store it starts in, its trace and the store it ends
    in by [T], whether it returns or raises. *)
Definition obeys (T : Store -> list Effect -> Store -> Prop) {A} (m : M A)
    : Prop :=
  forall s, T s (effects (m s)) (final (m s)).



(** Every key handed to a loss was drawn for it, and every batch too. *)
Definition fed (s : Store) (effs : list Effect) (s' : Store) : Prop :=
  used_keys effs = drawn_keys effs /\ used_batches effs = drawn_batches effs.

(** The keys drawn are the next keys of the stream, which is left advanced
    by as many draws. *)
Definition streamed (s : Store) (effs : list Effect) (s' : Store) : Prop :=
  advance (length (drawn_keys effs)) (rng s) = (drawn_keys effs, rng s').

(** An SGD step, if [e] is one, is for a trainer scheduled at some step
    after [lo] and up to [hi]. *)
Definition scheduled_sgd (self : MultilossExperiment) (lo hi : Z) (e : Effect)
    : Prop :=
  match e with
  | SgdStep i _ _ =>
    exists t k, pure_trainers self !! i = Some t /\ lo < k <= hi /\
                should_train t k = true
  | _ => True
  end.

End Schedules.

(** * Properties *)
Section Properties.
Context `{B : Backend}.

(** Unfolds the primitive operations of a straight-line method body and
    splits on every test it makes. *)
Ltac run :=
  unfold train_trainer, eval_trainer, predict, loss, query, bind, gets,
    modify, tell, next_batch, next_rng, py_mod, logger_write, raise, ret,
    draw, set_state, set_step;
  simpl; repeat (case_match; simpl in *; simplify_eq; simpl in * ).

(** Reads a key of a dict built by successive writes of literal keys. *)
Ltac lookup_dict :=
  repeat (rewrite lookup_insert_eq ||
          rewrite lookup_insert_ne by discriminate).

(** ** The monad *)

Lemma bind_inl {A C} (m : M A) (f : A -> M C) s e :
  result (m s) = inl e ->
  result (bind m f s) = inl e /\ final (bind m f s) = final (m s) /\
  effects (bind m f s) = effects (m s).
Proof. intros H. unfold bind. rewrite H. auto. Qed.

Lemma bind_inr {A C} (m : M A) (f : A -> M C) s a :
  result (m s) = inr a ->
  result (bind m f s) = result (f a (final (m s))) /\
  final (bind m f s) = final (f a (final (m s))) /\
  effects (bind m f s) = effects (m s) ++ effects (f a (final (m s))).
Proof. intros H. unfold bind. rewrite H. auto. Qed.

(** A sequence succeeds only if both halves do. *)
Lemma bind_success {A C} (m : M A) (f : A -> M C) s c :
  result (bind m f s) = inr c ->
  exists a, result (m s) = inr a /\ result (f a (final (m s))) = inr c.
Proof.
  unfold bind. destruct (result (m s)) as [e|a] eqn:E; simpl; [discriminate|].
  eauto.
Qed.

Lemma preserves_ret {A} I Q (a : A) : preserves I Q (ret a).
Proof. intros s Hs. simpl. auto. Qed.

Lemma preserves_bind {A C} I Q (m : M A) (f : A -> M C) :
  preserves I Q m -> (forall a, preserves I Q (f a)) ->
  preserves I Q (bind m f).
Proof.
  intros Hm Hf s Hs. destruct (Hm s Hs) as [H1 H2].
  destruct (result (m s)) as [e|a] eqn:E.
  - destruct (bind_inl m f s e E) as (_ & -> & ->). auto.
  - destruct (bind_inr m f s a E) as (_ & -> & ->).
    destruct (Hf a _ H1) as [H3 H4]. split; [done|]. by apply Forall_app.
Qed.

Lemma preserves_for_each {A} I Q (l : list A) (body : A -> M unit) :
  (forall x, x ∈ l -> preserves I Q (body x)) ->
  preserves I Q (for_each l body).
Proof.
  induction l as [|x l IH]; intros H; simpl.
  - apply preserves_ret.
  - apply preserves_bind.
    + apply H. left.
    + intros _. apply IH. intros y Hy. apply H. by right.
Qed.

(** A loop that returns ran every iteration to its end; a projection of
    the trace is then the concatenation of the iterations' projections. *)
Lemma for_each_success {A T} (I : Store -> Prop) (pi : Effect -> option T)
    (g : A -> list T) (l : list A) (body : A -> M unit) :
  (forall x s, x ∈ l -> I s -> I (final (body x s)) /\
     (result (body x s) = inr tt -> omap pi (effects (body x s)) = g x)) ->
  forall s, I s -> result (for_each l body s) = inr tt ->
  omap pi (effects (for_each l body s)) = l ≫= g.
Proof.
  induction l as [|x l IH]; intros H s Hs Hr; simpl in *; [done|].
  destruct (bind_success _ _ _ _ Hr) as ([] & E1 & E2).
  destruct (bind_inr _ (fun _ => for_each l body) s tt E1) as (_ & _ & ->).
  rewrite omap_app. destruct (H x s) as [HI Hg]; [left|done|].
  rewrite (Hg E1). f_equal. apply IH; [|done..].
  intros y s' Hy. apply H. by right.
Qed.

(** ** One SGD step *)

Lemma dict_update_loss (metrics : LossMetrics) (l : Array) :
  dict_update metrics [("loss"%string, VArray l)] = <["loss"%string := VArray l]> metrics.
Proof. reflexivity. Qed.

(** C1. For every pure loss, state, batch and key: the loss, the metrics
    and the gradient come from the one [value_and_grad] call at
    [state.params], whose value part is [pure_loss] at those arguments; the
    loss is stored in the metrics under ["loss"]; the optimizer's [update] on
    the gradient and [state.opt_state] gives the updates and the new optimizer
    state; [apply_updates] on [state.params] gives the new parameters; the
    result is the new [TrainingState] with the metrics.  The input state is a
    value and is only read. *)
Theorem C1_sgd_step_algorithm (optimizer : GradientTransformation)
    (pure_loss : PureLoss) (state : TrainingState) (batch : Batch)
    (key : RngKey) :
  exists l metrics grads updates new_opt_state,
    value_and_grad pure_loss (params state) batch key = ((l, metrics), grads) /\
    pure_loss (params state) batch key = (l, metrics) /\
    update optimizer grads (opt_state state) = (updates, new_opt_state) /\
    sgd_step optimizer pure_loss state batch key =
      ({| params := apply_updates (params state) updates;
          opt_state := new_opt_state |},
       <["loss"%string := VArray l]> metrics).
Proof.
  unfold sgd_step, value_and_grad.
  destruct (pure_loss (params state) batch key) as [l metrics] eqn:El.
  destruct (update optimizer (grad pure_loss (params state) batch key)
              (opt_state state)) as [updates new_opt_state] eqn:Eu.
  exists l, metrics, (grad pure_loss (params state) batch key),
    updates, new_opt_state.
  rewrite Eu. auto.
Qed.

(** C7. In the body of the training loop, every record handed to the logger
    holds under ["loss"] the scalar loss of the SGD step just run, that is
    the loss of [pure_loss] at the state's parameters, the batch drawn from
    the trainer's dataset and the key drawn from the shared stream, whatever
    the raw metrics of [pure_loss] held under ["loss"]. *)
Theorem C7_train_record_loss (self : MultilossExperiment) (i : nat)
    (t : _PureTrainer) (s : Store) (r : LossMetrics) :
  LoggerWrite r ∈ effects (train_trainer self (i, t) s) ->
  exists batch key,
    effects (train_trainer self (i, t) s) =
      [NextBatch (dataset t) batch; NextKey key; SgdStep i batch key;
       LoggerWrite r] /\
    (_sgd_step self (pure_loss t) (state s) batch key).2 !! "loss"%string =
      Some (VArray (pure_loss t (params (state s)) batch key).1) /\
    r !! "loss"%string =
      Some (VArray (pure_loss t (params (state s)) batch key).1).
Proof.
  intros Hr. revert Hr. run;
    intros Hr; try (by repeat (apply elem_of_cons in Hr as [Hr|Hr]; [done|]);
                       apply elem_of_nil in Hr).
  repeat (apply elem_of_cons in Hr as [Hr|Hr]; simplify_eq).
  - eexists _, _. split; [reflexivity|].
    unfold _sgd_step, sgd_step, value_and_grad, dict_update in *.
    simpl in *. repeat case_match. simplify_eq. simpl.
    split; [by rewrite lookup_insert_eq|].
    rewrite !lookup_insert_ne by discriminate. by rewrite lookup_insert_eq.
  - by apply elem_of_nil in Hr.
Qed.

(** ** The constructor *)

(** C9. With an empty trainer list the constructor raises [IndexError] at
    [self.pure_trainers[0]], whatever the other arguments and the datasets:
    no experiment is returned that a later [train] could fail on, and the
    failing path draws no batch and no key. *)
Theorem C9_empty_trainers_fail_at_construction (enn : EpistemicNetwork)
    (optimizer : GradientTransformation) (seed train_log_freq : Z)
    (eval_datasets : option (list (string * Handle))) (eval_log_freq : Z)
    (its : gmap Handle BatchIterator) :
  __init__ enn [] optimizer seed train_log_freq eval_datasets eval_log_freq its
    = inl IndexError.
Proof. reflexivity. Qed.

Lemma __init___inr enn trainers optimizer seed tlf eds elf its self s :
  __init__ enn trainers optimizer seed tlf eds elf its = inr (self, s) ->
  exists t0 rest batch it',
    _purify_trainers trainers enn = t0 :: rest /\
    draw (dataset t0) its = inr (batch, it') /\
    self = {| enn := enn; pure_trainers := t0 :: rest; optimizer := optimizer;
              _eval_datasets := eds; _eval_log_freq := elf;
              _train_log_freq := tlf |} /\
    step s = 0 /\ iterators s = it'.
Proof.
  unfold __init__. intros H.
  destruct (_purify_trainers trainers enn) as [|t0 rest]; [done|].
  destruct (draw (dataset t0) its) as [e|[batch it']] eqn:Ed; [done|].
  repeat case_match. simplify_eq. by exists t0, rest, batch, it'.
Qed.

(** ** The read-only methods *)

Lemma predict_final self inputs seed s : final (predict self inputs seed s) = s.
Proof. reflexivity. Qed.

Lemma loss_final self batch seed s : final (loss self batch seed s) = s.
Proof. unfold loss. destruct (pure_trainers self); reflexivity. Qed.

Lemma query_final self q s : final (query self q s) = s.
Proof. destruct q; simpl; [reflexivity | apply loss_final]. Qed.

Lemma query_effects self q s : Forall is_eval_loss (effects (query self q s)).
Proof.
  destruct q; simpl; [constructor|].
  unfold loss. destruct (pure_trainers self); simpl; repeat constructor.
Qed.

(** C3. [predict] and [loss] return the store they were called in: the
    shared random stream, the step counter, the training state and every
    dataset iterator are unchanged, no key or batch is drawn and nothing is
    logged.  Hence after any sequence of such calls, [train] behaves exactly
    as it would have without them. *)
Theorem C3_predict_loss_read_only (self : MultilossExperiment)
    (qs : list Query) (s : Store) :
  (forall inputs seed, final (predict self inputs seed s) = s) /\
  (forall batch seed, final (loss self batch seed s) = s) /\
  final (for_each qs (query self) s) = s /\
  Forall is_eval_loss (effects (for_each qs (query self) s)) /\
  forall num_batches,
    train self num_batches (final (for_each qs (query self) s)) =
    train self num_batches s.
Proof.
  assert (Hp : preserves (fun s' => s' = s) is_eval_loss
                 (for_each qs (query self))).
  { apply preserves_for_each. intros q _ s' ->. split.
    - apply query_final.
    - apply query_effects. }
  destruct (Hp s eq_refl) as [Hf He].
  split; [intros; apply predict_final|].
  split; [intros; apply loss_final|].
  split; [done|]. split; [done|]. intros n. by rewrite Hf.
Qed.

(** [loss] evaluates the first pure trainer's [pure_loss] at the current
    parameters, the given batch and the key [PRNGKey(seed)], and returns that
    call's whole result: the pair of the scalar loss and the metrics. *)
Lemma loss_result (self : MultilossExperiment) (t0 : _PureTrainer)
    (rest : list _PureTrainer) (batch : Batch) (seed : Z) (s : Store) :
  pure_trainers self = t0 :: rest ->
  result (loss self batch seed s) =
    inr (pure_loss t0 (params (state s)) batch (PRNGKey seed)).
Proof. intros H. unfold loss. rewrite H. reflexivity. Qed.

(** ** The two loop bodies of [train] *)

Lemma train_trainer_idle self j t s :
  should_train t (step s) = false ->
  train_trainer self (j, t) s = ret tt s.
Proof. intros H. unfold train_trainer, bind, gets. simpl. by rewrite H. Qed.

Lemma train_trainer_shape self j t s :
  let o := train_trainer self (j, t) s in
  step (final o) = step s /\
  (forall h, h <> dataset t -> iterators (final o) !! h = iterators s !! h) /\
  Forall (train_effect j t (step s)) (effects o).
Proof.
  run; repeat split; auto; intros;
    repeat (apply Forall_cons; split); try apply Forall_nil; simpl; auto;
    try (by rewrite lookup_insert_ne).
  unfold tags, dict_update; simpl. by lookup_dict.
Qed.

Lemma eval_trainer_shape ds_name h j t s :
  let o := eval_trainer ds_name h (j, t) s in
  step (final o) = step s /\ state (final o) = state s /\
  (forall h', h' <> h -> iterators (final o) !! h' = iterators s !! h') /\
  Forall (eval_effect ds_name h j t (step s)) (effects o) /\
  (result o = inr tt ->
   exists batch key r,
     effects o = [NextBatch h batch; NextKey key; EvalLoss j batch key;
                  LoggerWrite r] /\
     tags r = eval_tags ds_name (step s) t /\
     r !! "loss"%string =
       Some (VArray (pure_loss t (params (state s)) batch key).1)).
Proof.
  assert (Ht : forall (m : LossMetrics) (l : Array) (n : Z),
    tags (dict_update m
      [("dataset"%string, VStr ds_name); ("step"%string, VInt n);
       ("sgd"%string, VBool false); ("loss"%string, VArray l);
       ("trainer"%string, VStr (name t))]) = eval_tags ds_name n t).
  { intros m l n. unfold tags, eval_tags, dict_update; simpl. by lookup_dict. }
  run; repeat split; auto; intros; try done;
    repeat (apply Forall_cons; split); try apply Forall_nil; simpl; auto;
    try (by rewrite lookup_insert_ne).
  eexists _, _, _. split; [reflexivity|]. split; [apply Ht|].
  unfold dict_update; simpl. lookup_dict.
  match goal with H : pure_loss _ _ _ _ = _ |- _ => by rewrite H end.
Qed.

(** ** The loops of [train] *)

Lemma preserves_weaken {A} (I : Store -> Prop) (Q Q' : Effect -> Prop) (m : M A) :
  (forall e, Q e -> Q' e) -> preserves I Q m -> preserves I Q' m.
Proof.
  intros HQ Hm s Hs. destruct (Hm s Hs) as [H1 H2]. split; [done|].
  eapply Forall_impl; eauto.
Qed.

Lemma preserves_py_mod I Q a b : preserves I Q (py_mod a b).
Proof. intros s Hs. unfold py_mod. case_decide; simpl; auto. Qed.

Lemma preserves_gets {A} I Q (f : Store -> A) : preserves I Q (gets f).
Proof. intros s Hs. simpl. auto. Qed.

(** The evaluation block does what its inner body does. *)
Lemma evaluate_preserves self I Q :
  (forall ds_name h x,
     (ds_name, h) ∈ items (_eval_datasets self) ->
     x ∈ enumerate (pure_trainers self) ->
     preserves I Q (eval_trainer ds_name h x)) ->
  preserves I Q (evaluate self).
Proof.
  intros H. unfold evaluate. case_match; [|apply preserves_ret].
  apply preserves_bind; [apply preserves_gets|]. intros n.
  apply preserves_bind; [apply preserves_py_mod|]. intros r.
  case_decide; [|apply preserves_ret].
  apply preserves_for_each. intros [ds_name h] Hin.
  apply preserves_for_each. intros x Hx. by apply H.
Qed.

Lemma evaluate_falsy self s :
  truthy (_eval_datasets self) = false -> evaluate self s = ret tt s.
Proof. intros H. unfold evaluate. by rewrite H. Qed.

(** The step body: the counter is bumped first, then the two blocks run. *)
Lemma train_step_unfold self s :
  train_step self s =
  (for_each (enumerate (pure_trainers self)) (train_trainer self) ;;;
   evaluate self) (set_step (step s + 1) s).
Proof.
  unfold train_step. unfold bind at 1 2. simpl.
  by destruct (bind _ _ _).
Qed.

Lemma enumerate_lookup {A} (l : list A) (j : nat) (x : A) :
  (j, x) ∈ enumerate l <-> l !! j = Some x.
Proof.
  unfold enumerate. rewrite elem_of_lookup_imap. split.
  - intros (i & y & ? & ?). by simplify_eq.
  - intros ?. by exists j, x.
Qed.

(** An invariant of the store that ignores the step counter, and a set of
    effects, are kept by [n] training steps if each step keeps them. *)
Lemma repeat_train_step_inv self (I : Store -> Prop) (Q : Effect -> Prop)
    (good : Z -> Prop) :
  (forall n s, I s -> I (set_step n s)) ->
  (forall k j t, good k -> pure_trainers self !! j = Some t ->
     preserves (fun s => step s = k /\ I s) Q (train_trainer self (j, t))) ->
  (forall k, good k ->
     preserves (fun s => step s = k /\ I s) Q (evaluate self)) ->
  forall n s, I s ->
    (forall k, step s < k <= step s + Z.of_nat n -> good k) ->
    let o := repeat_ n (train_step self) s in
    I (final o) /\ Forall Q (effects o) /\
    step s <= step (final o) <= step s + Z.of_nat n /\
    (result o = inr tt -> step (final o) = step s + Z.of_nat n).
Proof.
  intros Hset Htr Hev. induction n as [|n IH]; intros s Hs Hgood; simpl.
  { repeat split; auto; lia. }
  assert (Hb : preserves (fun s' => step s' = step s + 1 /\ I s') Q
            (for_each (enumerate (pure_trainers self)) (train_trainer self) ;;;
             evaluate self)).
  { assert (good (step s + 1)) by (apply Hgood; lia).
    apply preserves_bind.
    - apply preserves_for_each. intros [j t] Hin. apply Htr; [done|].
      by apply enumerate_lookup.
    - intros _. by apply Hev. }
  destruct (Hb (set_step (step s + 1) s)) as [[H1 H2] H3].
  { split; [done|]. by apply Hset. }
  rewrite <- train_step_unfold in H1, H2, H3.
  destruct (result (train_step self s)) as [e|[]] eqn:E.
  - destruct (bind_inl _ (fun _ => repeat_ n (train_step self)) s e E)
      as (-> & -> & ->).
    repeat split; auto; try lia. done.
  - destruct (bind_inr _ (fun _ => repeat_ n (train_step self)) s tt E)
      as (-> & -> & ->).
    destruct (IH (final (train_step self s)) H2) as (H4 & H5 & H6 & H7).
    { intros k Hk. apply Hgood. lia. }
    repeat split; auto; try lia.
    + by apply Forall_app.
    + intros Hr. specialize (H7 Hr). lia.
Qed.

Lemma train_trainer_keeps_step self k x :
  preserves (fun s => step s = k) (fun _ => True) (train_trainer self x).
Proof.
  destruct x as [j t]. intros s Hk.
  destruct (train_trainer_shape self j t s) as (Hst & _ & _).
  split; [congruence|]. by apply Forall_forall.
Qed.

(** The evaluation block keeps the step counter and the training state, and
    runs no SGD step. *)
Lemma evaluate_frame self k st :
  preserves (fun s => step s = k /\ state s = st) not_sgd_step (evaluate self).
Proof.
  apply evaluate_preserves. intros ds_name h [j t] _ _ s [Hk Hs].
  destruct (eval_trainer_shape ds_name h j t s) as (H1 & H2 & _ & H3 & _).
  split; [split; congruence|].
  eapply Forall_impl; [exact H3|]. by intros [].
Qed.

Lemma train_trainer_keeps_step_all self k :
  preserves (fun s => step s = k) (fun _ => True)
    (for_each (enumerate (pure_trainers self)) (train_trainer self)).
Proof.
  apply preserves_for_each. intros x _. apply train_trainer_keeps_step.
Qed.

Lemma train_step_step self s : step (final (train_step self s)) = step s + 1.
Proof.
  rewrite train_step_unfold.
  assert (H : preserves (fun s' => step s' = step s + 1) (fun _ => True)
    (for_each (enumerate (pure_trainers self)) (train_trainer self) ;;;
     evaluate self)).
  { apply preserves_bind.
    - apply preserves_for_each. intros x _. apply train_trainer_keeps_step.
    - intros _ s' Hs'.
      destruct (evaluate_frame self (step s + 1) (state s') s') as [[H _] _];
        [done|].
      split; [done|]. by apply Forall_forall. }
  by destruct (H (set_step (step s + 1) s)).
Qed.

(** C4. The counter is 0 in the store the constructor returns.  One pass
    through the body of the outer loop of [train] adds exactly 1 to it,
    whatever the trainers do and whether or not the pass raises; so a call
    [train(num_batches)] that returns has added [num_batches] (for a
    non-negative count), and no call ever decreases it. *)
Theorem C4_step_counter (self : MultilossExperiment) (s : Store) :
  (forall enn trainers optimizer seed tlf eds elf its self0 s0,
     __init__ enn trainers optimizer seed tlf eds elf its = inr (self0, s0) ->
     step s0 = 0) /\
  step (final (train_step self s)) = step s + 1 /\
  (forall num_batches, 0 <= num_batches ->
     result (train self num_batches s) = inr tt ->
     step (final (train self num_batches s)) = step s + num_batches) /\
  (forall num_batches, step s <= step (final (train self num_batches s))).
Proof.
  assert (Hgen : forall n,
    let o := repeat_ n (train_step self) s in
    step s <= step (final o) <= step s + Z.of_nat n /\
    (result o = inr tt -> step (final o) = step s + Z.of_nat n)).
  { intros n.
    destruct (repeat_train_step_inv self (fun _ => True) (fun _ => True)
                (fun _ => True)) with (n := n) (s := s)
      as (_ & _ & H1 & H2); auto.
    - intros k j t _ _ s0 [Hk _].
      destruct (train_trainer_keeps_step self k (j, t) s0 Hk) as [H _].
      split; [done|]. by apply Forall_forall.
    - intros k _ s0 [Hk _].
      destruct (evaluate_frame self k (state s0) s0) as [[H _] _]; [done|].
      split; [done|]. by apply Forall_forall. }
  split.
  { intros * H. apply __init___inr in H as (? & ? & ? & ? & ? & ? & ? & ? & ?).
    done. }
  split; [apply train_step_step|].
  split.
  - intros n Hn Hr. unfold train in *. destruct (Hgen (Z.to_nat n)) as [_ H].
    rewrite (H Hr). lia.
  - intros n. unfold train. destruct (Hgen (Z.to_nat n)) as [H _]. lia.
Qed.

(** ** A trainer that is never scheduled *)

Lemma Forall_not_elem {A} (P : A -> Prop) (l : list A) (x : A) :
  Forall P l -> ~ P x -> x ∉ l.
Proof. intros H Hx Hin. apply Hx. by eapply Forall_forall in H. Qed.

Section Unscheduled.
Variables (self : MultilossExperiment) (i : nat) (t : _PureTrainer).
Hypothesis Hi : pure_trainers self !! i = Some t.

Lemma unscheduled_off_duty (n : nat) (s : Store) :
  (forall k, step s < k <= step s + Z.of_nat n -> should_train t k = false) ->
  Forall (off_duty self i) (effects (repeat_ n (train_step self) s)).
Proof.
  intros Hk.
  apply (repeat_train_step_inv self (fun _ => True) (off_duty self i)
           (fun k => should_train t k = false)); auto.
  - intros k j t' Hgood Hj s' [Hs' _].
    destruct (train_trainer_shape self j t' s') as (H1 & _ & H2).
    split; [split; [congruence|done]|].
    destruct (decide (j = i)) as [->|Hne].
    + assert (t' = t) as -> by congruence.
      rewrite train_trainer_idle by congruence. constructor.
    + eapply Forall_impl; [exact H2|]. intros []; simpl; try done.
      congruence.
  - intros k Hgood s' [Hs' _].
    destruct (truthy (_eval_datasets self)) eqn:Et.
    + destruct (evaluate_frame self k (state s') s') as [[H1 _] H2]; [done|].
      split; [done|]. eapply Forall_impl; [exact H2|].
      by intros [].
    + rewrite evaluate_falsy by done. simpl. split; [done|constructor].
Qed.

Lemma off_duty_keys_for (effs : list Effect) :
  truthy (_eval_datasets self) = false ->
  Forall (off_duty self i) effs -> keys_for i effs = [].
Proof.
  intros Et. induction 1 as [|e effs He _ IH]; [done|].
  unfold keys_for in *. rewrite (omap_app _ [e] effs), IH, app_nil_r.
  destruct e; simpl in *; try done.
  - by rewrite decide_False.
  - congruence.
Qed.

Lemma unscheduled_dataset (n : nat) (s : Store) :
  (forall j t' k, pure_trainers self !! j = Some t' ->
     dataset t' = dataset t ->
     step s < k <= step s + Z.of_nat n -> should_train t' k = false) ->
  (forall ds_name h, (ds_name, h) ∈ items (_eval_datasets self) ->
     h <> dataset t) ->
  let o := repeat_ n (train_step self) s in
  iterators (final o) !! dataset t = iterators s !! dataset t /\
  Forall (hands_off t) (effects o).
Proof.
  intros Hk Hev.
  destruct (repeat_train_step_inv self
    (fun s' => iterators s' !! dataset t = iterators s !! dataset t) (hands_off t)
    (fun k => forall j t', pure_trainers self !! j = Some t' ->
        dataset t' = dataset t -> should_train t' k = false))
    with (n := n) (s := s) as (H1 & H2 & _); auto.
  - intros k j t' Hgood Hj s' [Hs' Hit].
    destruct (train_trainer_shape self j t' s') as (H1 & H2 & H3).
    destruct (decide (dataset t' = dataset t)) as [Heq|Hne].
    + rewrite train_trainer_idle by (rewrite Hs'; eauto).
      split; [done|constructor].
    + split; [split; [congruence|]|].
      * rewrite H2 by done. done.
      * eapply Forall_impl; [exact H3|]. intros []; simpl; try done.
        congruence.
  - intros k Hgood. apply evaluate_preserves.
    intros ds_name h [j t'] Hin _ s' [Hs' Hit].
    destruct (eval_trainer_shape ds_name h j t' s') as (H1 & _ & H2 & H3 & _).
    specialize (Hev _ _ Hin).
    split; [split; [congruence|]|].
    + rewrite H2 by done. done.
    + eapply Forall_impl; [exact H3|]. intros []; simpl; try done.
      congruence.
  - intros k Hr j t' Hj Hd. eapply Hk; eauto.
Qed.

Lemma unscheduled_name (n : nat) (s : Store) :
  (forall j t' k, pure_trainers self !! j = Some t' -> name t' = name t ->
     step s < k <= step s + Z.of_nat n -> should_train t' k = false) ->
  Forall (other_name t) (effects (repeat_ n (train_step self) s)).
Proof.
  intros Hk.
  apply (repeat_train_step_inv self (fun _ => True) (other_name t)
    (fun k => forall j t', pure_trainers self !! j = Some t' ->
        name t' = name t -> should_train t' k = false)); auto.
  - intros k j t' Hgood Hj s' [Hs' _].
    destruct (train_trainer_shape self j t' s') as (H1 & _ & H3).
    destruct (decide (name t' = name t)) as [Heq|Hne].
    + rewrite train_trainer_idle by (rewrite Hs'; eauto).
      split; [done|constructor].
    + split; [split; [congruence|done]|].
      eapply Forall_impl; [exact H3|]. intros []; simpl; try done.
      unfold tags. intros Ht _. simplify_eq. congruence.
  - intros k Hgood. apply evaluate_preserves.
    intros ds_name h [j t'] Hin _ s' [Hs' _].
    destruct (eval_trainer_shape ds_name h j t' s') as (H1 & _ & _ & H3 & _).
    split; [split; [congruence|done]|].
    eapply Forall_impl; [exact H3|]. intros []; simpl; try done.
    unfold tags, eval_tags, is_train_record. intros Ht. simplify_eq.
    match goal with H : _ !! "sgd"%string = _ |- _ => by rewrite H end.
  - intros k Hr j t' Hj Hd. eapply Hk; eauto.
Qed.

End Unscheduled.

(** C5 (amended). A trainer whose [should_train] is false at every step
    1..N costs nothing in the training branch of those N steps: no SGD step
    is run with its loss, so no batch and no key is drawn for one.  A key is
    handed to its loss only by an evaluation round, hence none at all when no
    evaluation dataset is configured.  Its dataset is not advanced provided
    the trainers bound to the same iterator are unscheduled too and no
    evaluation dataset is that iterator.  No training record bears its name
    provided the trainers with the same name are unscheduled too. *)
Theorem C5_unscheduled_trainer (self : MultilossExperiment) (s : Store)
    (i : nat) (t : _PureTrainer) (N : Z) :
  pure_trainers self !! i = Some t ->
  step s = 0 ->
  (forall k, 1 <= k <= N -> should_train t k = false) ->
  let o := train self N s in
  (forall batch key, SgdStep i batch key ∉ effects o) /\
  (truthy (_eval_datasets self) = false -> keys_for i (effects o) = []) /\
  ((forall j t' k, pure_trainers self !! j = Some t' ->
      dataset t' = dataset t -> 1 <= k <= N -> should_train t' k = false) ->
   (forall ds_name h, (ds_name, h) ∈ items (_eval_datasets self) ->
      h <> dataset t) ->
   iterators (final o) !! dataset t = iterators s !! dataset t /\
   forall batch, NextBatch (dataset t) batch ∉ effects o) /\
  ((forall j t' k, pure_trainers self !! j = Some t' ->
      name t' = name t -> 1 <= k <= N -> should_train t' k = false) ->
   forall r, LoggerWrite r ∈ effects o -> is_train_record r = true ->
     r !! "trainer"%string <> Some (VStr (name t))).
Proof.
  intros Hi Hs Hidle. unfold train. simpl.
  assert (Hrange : forall k,
    step s < k <= step s + Z.of_nat (Z.to_nat N) -> 1 <= k <= N) by lia.
  pose proof (unscheduled_off_duty self i t Hi (Z.to_nat N) s) as Hoff.
  split; [|split; [|split]].
  - intros batch key. eapply Forall_not_elem; [apply Hoff; auto|].
    simpl. auto.
  - intros Et. apply (off_duty_keys_for self i); auto.
  - intros Hshare Hev.
    destruct (unscheduled_dataset self t (Z.to_nat N) s) as [H1 H2]; eauto.
    split; [done|]. intros batch. eapply Forall_not_elem; [exact H2|].
    simpl. auto.
  - intros Hshare r Hr Htr.
    pose proof (unscheduled_name self t (Z.to_nat N) s) as H.
    eapply Forall_forall in H; [|eauto|exact Hr]. by apply H.
Qed.

(** ** The evaluation schedule *)

Lemma omap_all_None {A T} (pi : A -> option T) (l : list A) :
  Forall (fun e => pi e = None) l -> omap pi l = [].
Proof. induction 1 as [|e l He _ IH]; [done|]. simpl. by rewrite He. Qed.

Lemma imap_pair_bind {A T} (f : A -> T) (g : nat -> nat) (l : list A) :
  imap (fun j x => (g j, x)) l ≫= (fun '(_, x) => [f x]) = f <$> l.
Proof.
  revert g. induction l as [|x l IH]; intros g; [done|].
  rewrite imap_cons. simpl. f_equal. apply (IH (g ∘ S)).
Qed.

Lemma enumerate_bind {A T} (f : A -> T) (l : list A) :
  enumerate l ≫= (fun '(_, x) => [f x]) = f <$> l.
Proof. apply (imap_pair_bind f id l). Qed.

(** The training branch writes no evaluation record. *)
Lemma train_trainers_eval_log self s :
  eval_log (effects
    (for_each (enumerate (pure_trainers self)) (train_trainer self) s)) = [].
Proof.
  apply omap_all_None.
  apply (preserves_for_each (fun _ => True) (fun e => eval_pi e = None)
           (enumerate (pure_trainers self)) (train_trainer self)); [|done].
  intros [j t] _ s' _. split; [done|].
  destruct (train_trainer_shape self j t s') as (_ & _ & H).
  eapply Forall_impl; [exact H|]. intros []; simpl; try done.
  unfold tags, is_eval_record. intros Ht. simplify_eq.
  match goal with H : _ !! "sgd"%string = _ |- _ => by rewrite H end.
Qed.

Lemma eval_trainers_keep_step ds_name h k (l : list (nat * _PureTrainer)) :
  preserves (fun s => step s = k) (fun _ => True)
    (for_each l (eval_trainer ds_name h)).
Proof.
  apply preserves_for_each. intros [j t] _ s Hs.
  destruct (eval_trainer_shape ds_name h j t s) as (H & _).
  split; [congruence|]. by apply Forall_forall.
Qed.

(** An evaluation block that returns wrote exactly the records due. *)
Lemma evaluate_eval_log self s :
  result (evaluate self s) = inr tt ->
  eval_log (effects (evaluate self s)) = evals_at self (step s).
Proof.
  unfold evaluate, evals_at.
  destruct (truthy (_eval_datasets self)); [|done].
  unfold bind at 1 2, gets, py_mod; simpl.
  case_decide as Hf; simpl; [done|].
  case_decide as Hr; simpl.
  2: { intros _. by rewrite bool_decide_eq_false_2. }
  rewrite bool_decide_eq_true_2 by done.
  match goal with |- context [for_each ?l ?b s] =>
    destruct (result (for_each l b s)) as [e|[]] eqn:E; simpl; [done|];
    intros _;
    apply (for_each_success (fun s' => step s' = step s) eval_pi
             (fun '(ds_name, _) =>
                eval_tags ds_name (step s) <$> pure_trainers self)
             l b); [|done..]
  end.
  intros [ds_name h] s' _ Hs'. split.
  { by apply (eval_trainers_keep_step ds_name h (step s)). }
  intros Hres. rewrite <- enumerate_bind.
  apply (for_each_success (fun s' => step s' = step s) eval_pi); [|done..].
  intros [j t] s'' _ Hs''.
  destruct (eval_trainer_shape ds_name h j t s'') as (H1 & _ & _ & _ & H2).
  split; [congruence|]. intros Hok.
  destruct (H2 Hok) as (batch & key & r & -> & Ht & _).
  unfold eval_log. simpl. unfold is_eval_record.
  pose proof Ht as Ht'. unfold tags, eval_tags in Ht'. simplify_eq.
  match goal with H : _ !! "sgd"%string = _ |- _ => rewrite H end.
  by rewrite Ht, Hs''.
Qed.

Lemma eval_log_app (l1 l2 : list Effect) :
  eval_log (l1 ++ l2) = eval_log l1 ++ eval_log l2.
Proof. apply omap_app. Qed.

Lemma train_step_eval_log self s :
  result (train_step self s) = inr tt ->
  eval_log (effects (train_step self s)) = evals_at self (step s + 1).
Proof.
  rewrite train_step_unfold. intros Hr.
  destruct (bind_success _ _ _ _ Hr) as ([] & E1 & E2).
  destruct (bind_inr _ (fun _ => evaluate self) _ tt E1) as (_ & _ & ->).
  rewrite eval_log_app, (train_trainers_eval_log self). simpl.
  rewrite (evaluate_eval_log self _ E2). f_equal.
  by destruct (train_trainer_keeps_step_all self (step s + 1)
                 (set_step (step s + 1) s)).
Qed.

(** A call of [train] that returns wrote exactly the evaluation records due
    at the steps it ran, in order. *)
Lemma repeat_eval_log self n : forall s,
  result (repeat_ n (train_step self) s) = inr tt ->
  eval_log (effects (repeat_ n (train_step self) s)) =
  evals_after self (step s) n.
Proof.
  induction n as [|n IH]; intros s Hr; simpl in *; [done|].
  destruct (bind_success _ _ _ _ Hr) as ([] & E1 & E2).
  destruct (bind_inr _ (fun _ => repeat_ n (train_step self)) _ tt E1)
    as (_ & _ & ->).
  rewrite eval_log_app, (train_step_eval_log self s E1), (IH _ E2).
  by rewrite train_step_step.
Qed.

(** C6. With [eval_log_freq = 2], one evaluation dataset and two trainers, a
    call [train(4)] on a fresh experiment that returns has written exactly
    four evaluation records: at step 2 one for the first trainer and one for
    the second, and the same at step 4, each tagged with the name of the
    evaluation dataset and ['sgd': False].  The evaluation block runs no SGD
    step and returns the training state it found. *)
Theorem C6_eval_schedule (self : MultilossExperiment) (s : Store)
    (t1 t2 : _PureTrainer) (ds_name : string) (h : Handle) :
  pure_trainers self = [t1; t2] ->
  _eval_datasets self = Some [(ds_name, h)] ->
  _eval_log_freq self = 2 ->
  step s = 0 ->
  result (train self 4 s) = inr tt ->
  eval_log (effects (train self 4 s)) =
    [eval_tags ds_name 2 t1; eval_tags ds_name 2 t2;
     eval_tags ds_name 4 t1; eval_tags ds_name 4 t2] /\
  (forall s', state (final (evaluate self s')) = state s' /\
              step (final (evaluate self s')) = step s' /\
              Forall not_sgd_step (effects (evaluate self s'))).
Proof.
  intros Ht Hd Hf Hs Hr. split.
  - unfold train in *. rewrite (repeat_eval_log self _ s Hr).
    change (Z.to_nat 4) with 4%nat. simpl. unfold evals_at.
    rewrite Ht, Hd, Hf, Hs. reflexivity.
  - intros s'.
    destruct (evaluate_frame self (step s') (state s') s') as [[H1 H2] H3];
      done.
Qed.

(** ** An empty evaluation mapping *)

Lemma falsy_no_eval self n s :
  truthy (_eval_datasets self) = false ->
  Forall not_eval (effects (repeat_ n (train_step self) s)).
Proof.
  intros Et.
  apply (repeat_train_step_inv self (fun _ => True) not_eval (fun _ => True));
    auto.
  - intros k j t _ _ s' [Hs' _].
    destruct (train_trainer_shape self j t s') as (H1 & _ & H2).
    split; [split; [congruence|done]|].
    eapply Forall_impl; [exact H2|]. intros []; simpl; try done.
    unfold tags, is_eval_record. intros Ht. simplify_eq.
    match goal with H : _ !! "sgd"%string = _ |- _ => by rewrite H end.
  - intros k _ s' [Hs' _]. rewrite evaluate_falsy by done.
    simpl. split; [done|constructor].
Qed.

(** C10. An experiment whose evaluation mapping is the empty dict trains
    exactly as the same experiment with no mapping: same result, same final
    store, same effects, for every [eval_log_freq] (0 included) and every
    number of steps; and it neither evaluates a loss outside an SGD step nor
    writes a record tagged ['sgd': False]. *)
Theorem C10_empty_eval_mapping (self : MultilossExperiment)
    (num_batches : Z) (s : Store) :
  let with_empty := set_eval_datasets self (Some []) in
  let with_none := set_eval_datasets self None in
  train with_empty num_batches s = train with_none num_batches s /\
  Forall not_eval (effects (train with_empty num_batches s)) /\
  eval_log (effects (train with_empty num_batches s)) = [].
Proof.
  intros with_empty with_none.
  assert (H : Forall not_eval (effects (train with_empty num_batches s))).
  { by apply falsy_no_eval. }
  split; [reflexivity|]. split; [done|].
  apply omap_all_None. eapply Forall_impl; [exact H|].
  intros []; simpl; try done. by intros ->.
Qed.

(** ** Determinism *)

Lemma bind_same {A C} (m1 m2 : M A) (f1 f2 : A -> M C) s :
  same_run (m1 s) (m2 s) ->
  (forall a s', same_run (f1 a s') (f2 a s')) ->
  same_run (bind m1 f1 s) (bind m2 f2 s).
Proof.
  intros [Hr Hf] H. unfold bind. rewrite <- Hr, <- Hf.
  destruct (result (m1 s)) as [e|a]; [done|]. apply H.
Qed.

Lemma for_each_same {A} (l : list A) (b1 b2 : A -> M unit) :
  (forall x s, same_run (b1 x s) (b2 x s)) ->
  forall s, same_run (for_each l b1 s) (for_each l b2 s).
Proof.
  intros H. induction l as [|x l IH]; intros s; simpl; [done|].
  apply bind_same; auto.
Qed.

Lemma repeat_same (n : nat) (b1 b2 : M unit) :
  (forall s, same_run (b1 s) (b2 s)) ->
  forall s, same_run (repeat_ n b1 s) (repeat_ n b2 s).
Proof.
  intros H. induction n as [|n IH]; intros s; simpl; [done|].
  apply bind_same; auto.
Qed.

Section TwoRuns.
Variables (self : MultilossExperiment) (tlf1 tlf2 : Z).
Hypothesis Hfreq : tlf1 = tlf2 \/ (tlf1 <> 0 /\ tlf2 <> 0).

Local Abbreviation run1 := (set_train_log_freq self tlf1).
Local Abbreviation run2 := (set_train_log_freq self tlf2).

(** The logging frequency decides what is written, not what is learnt. *)
Lemma train_trainer_same x s :
  same_run (train_trainer run1 x s) (train_trainer run2 x s).
Proof.
  destruct Hfreq as [->|[H1 H2]]; [done|].
  destruct x as [j t]. unfold same_run. run; try done.
  all: unfold _sgd_step in *; simpl in *; split; congruence.
Qed.

Lemma train_same n s : same_run (train run1 n s) (train run2 n s).
Proof.
  unfold train. apply repeat_same. clear s. intros s. unfold train_step.
  apply bind_same; [done|]. intros k s1.
  apply bind_same; [done|]. intros _ s2.
  apply bind_same; [|done].
  apply for_each_same. apply train_trainer_same.
Qed.

Lemma state_sequence_same N : forall s,
  state_sequence run1 N s = state_sequence run2 N s.
Proof.
  induction N as [|N IH]; intros s; simpl; [done|].
  destruct (train_same 1 s) as [Hr Hf]. rewrite <- Hr, <- Hf.
  destruct (result (train run1 1 s)); [done|]. by rewrite IH.
Qed.

End TwoRuns.

(** C8. Two experiments constructed from the same network, trainer list,
    optimizer, seed, evaluation datasets and evaluation frequency, over
    datasets in the same initial condition, start from the same training
    state and go through the same training states over any [N] steps.  The
    runs may even log at different (non-zero) frequencies. *)
Theorem C8_deterministic_states (enn : EpistemicNetwork)
    (trainers : list MultilossTrainer) (optimizer : GradientTransformation)
    (seed : Z) (eval_datasets : option (list (string * Handle)))
    (eval_log_freq tlf1 tlf2 : Z) (its : gmap Handle BatchIterator)
    (self1 self2 : MultilossExperiment) (s1 s2 : Store) (N : nat) :
  tlf1 = tlf2 \/ (tlf1 <> 0 /\ tlf2 <> 0) ->
  __init__ enn trainers optimizer seed tlf1 eval_datasets eval_log_freq its
    = inr (self1, s1) ->
  __init__ enn trainers optimizer seed tlf2 eval_datasets eval_log_freq its
    = inr (self2, s2) ->
  state s1 = state s2 /\
  state_sequence self1 N s1 = state_sequence self2 N s2.
Proof.
  intros Hfreq H1 H2. unfold __init__ in H1, H2.
  destruct (_purify_trainers trainers enn) as [|t0 rest]; [done|].
  destruct (draw (dataset t0) its) as [e|[batch its']]; [done|].
  repeat case_match. simplify_eq. split; [done|].
  by apply (state_sequence_same
    {| enn := enn; pure_trainers := t0 :: rest; optimizer := optimizer;
       _eval_datasets := eval_datasets; _eval_log_freq := eval_log_freq;
       _train_log_freq := 0 |} tlf1 tlf2).
Qed.

(** * Further properties of the module *)

(** ** Purification and the constructor *)



(** X3. What a successful construction leaves behind: the parameters are
    the network's [init] on the second key of the seeded stream, the [x] of
    the first batch of the first trainer's dataset and the index made from the
    first key; the optimizer state is [optimizer.init] of them; the stream has
    lost two keys; the first trainer's dataset has lost that one batch and
    every other dataset is as it was; the configuration is stored as given. *)
Theorem init_store (enn : EpistemicNetwork) (t : MultilossTrainer)
    (rest : list MultilossTrainer) (optimizer : GradientTransformation)
    (seed tlf : Z) (eds : option (list (string * Handle))) (elf : Z)
    (its : gmap Handle BatchIterator) (it it' : BatchIterator) (batch : Batch)
    (k1 k2 : RngKey) (r1 r2 : PRNGSequence)
    (self : MultilossExperiment) (s : Store) :
  its !! trainer_dataset t = Some it ->
  iter_next it = Some (batch, it') ->
  prng_next (prng_sequence seed) = (k1, r1) ->
  prng_next r1 = (k2, r2) ->
  __init__ enn (t :: rest) optimizer seed tlf eds elf its = inr (self, s) ->
  let p := init enn k2 (batch_x batch) (indexer enn k1) in
  state s = {| params := p; opt_state := opt_init optimizer p |} /\
  rng s = r2 /\
  step s = 0 /\
  iterators s !! trainer_dataset t = Some it' /\
  (forall h, h <> trainer_dataset t -> iterators s !! h = its !! h) /\
  pure_trainers self = _purify_trainers (t :: rest) enn /\
  _eval_datasets self = eds /\ _eval_log_freq self = elf /\
  _train_log_freq self = tlf.
Proof.
  intros Hit Hnext E1 E2. unfold __init__, draw. simpl.
  rewrite Hit, Hnext, E1, E2. intros H. simplify_eq. simpl.
  repeat split; try done.
  - by rewrite lookup_insert_eq.
  - intros h Hh. by rewrite lookup_insert_ne.
Qed.


(** ** Edge cases of [train] *)

(** X5. With [train_log_freq = 0], a scheduled trainer whose dataset yields a
    batch makes the loop body raise [ZeroDivisionError] after the update: the
    batch and the key are consumed, the training state is already replaced by
    the SGD step's, and nothing is logged. *)
Theorem train_log_freq_zero (self : MultilossExperiment) (j : nat)
    (t : _PureTrainer) (s : Store) (batch : Batch)
    (its' : gmap Handle BatchIterator) (key : RngKey) (r' : PRNGSequence) :
  _train_log_freq self = 0 ->
  should_train t (step s) = true ->
  draw (dataset t) (iterators s) = inr (batch, its') ->
  prng_next (rng s) = (key, r') ->
  train_trainer self (j, t) s =
    {| result := inl ZeroDivisionError;
       final := {| rng := r';
                   state := (_sgd_step self (pure_loss t) (state s) batch key).1;
                   step := step s; iterators := its' |};
       effects := [NextBatch (dataset t) batch; NextKey key;
                   SgdStep j batch key] |}.
Proof.
  intros Hf Hs Hd Hk.
  unfold train_trainer, bind, gets, modify, tell, next_batch, next_rng, py_mod,
    raise, set_state. simpl.
  rewrite Hs, Hd. simpl. rewrite Hk. simpl.
  destruct (_sgd_step self (pure_loss t) (state s) batch key) as [st lm].
  simpl. rewrite Hf. by rewrite decide_True.
Qed.

(** X6. With a non-empty evaluation mapping and [eval_log_freq = 0], the
    evaluation block raises [ZeroDivisionError] before it draws anything, so
    no call [train(n)] with [n >= 1] returns. *)
Theorem eval_log_freq_zero (self : MultilossExperiment) (n : Z) (s : Store) :
  truthy (_eval_datasets self) = true ->
  _eval_log_freq self = 0 ->
  evaluate self s =
    {| result := inl ZeroDivisionError; final := s; effects := [] |} /\
  (1 <= n -> result (train self n s) <> inr tt).
Proof.
  intros Ht Hf.
  assert (He : forall s', evaluate self s' =
    {| result := inl ZeroDivisionError; final := s'; effects := [] |}).
  { intros s'. unfold evaluate, bind, gets, py_mod. rewrite Ht, Hf.
    reflexivity. }
  split; [apply He|]. intros Hn Hr. unfold train in Hr.
  destruct (Z.to_nat n) as [|m] eqn:Em; [lia|]. simpl in Hr.
  destruct (bind_success _ _ _ _ Hr) as ([] & E1 & _).
  rewrite train_step_unfold in E1.
  destruct (bind_success _ _ _ _ E1) as ([] & _ & E2).
  by rewrite He in E2.
Qed.

(** X7. [train] of a count that is zero or negative does nothing: it
    returns, the store is unchanged and there is no effect. *)
Theorem train_nonpositive (self : MultilossExperiment) (n : Z) (s : Store) :
  n <= 0 -> train self n s = ret tt s.
Proof.
  intros Hn. unfold train. by replace (Z.to_nat n) with 0%nat by lia.
Qed.

Lemma bind_ret_l {A} (f : unit -> M A) (s : Store) :
  bind (ret tt) f s = f tt s.
Proof. unfold bind, ret. simpl. by destruct (f tt s). Qed.

Lemma bind_assoc {A C D} (m : M A) (f : A -> M C) (g : C -> M D) (s : Store) :
  bind (bind m f) g s = bind m (fun a => bind (f a) g) s.
Proof.
  unfold bind. destruct (result (m s)) as [e|a]; simpl; [done|].
  destruct (result (f a (final (m s)))) as [e|c]; simpl; [done|].
  by rewrite app_assoc.
Qed.

Lemma bind_ext {A C} (m : M A) (f g : A -> M C) (s : Store) :
  (forall a s', f a s' = g a s') -> bind m f s = bind m g s.
Proof.
  intros H. unfold bind. destruct (result (m s)); [done|]. by rewrite H.
Qed.

Lemma repeat_add (a b : nat) (body : M unit) (s : Store) :
  repeat_ (a + b) body s = (repeat_ a body ;;; repeat_ b body) s.
Proof.
  revert s. induction a as [|a IH]; intros s; simpl.
  - by rewrite bind_ret_l.
  - rewrite bind_assoc. apply bind_ext. intros _ s'. apply IH.
Qed.

(** X8. Training in two calls is training in one: for non-negative counts
    [train(a + b)] has the result, the final store and the effects of
    [train(a)] followed by [train(b)] (which does not run when [train(a)]
    raises). *)
Theorem train_add (self : MultilossExperiment) (a b : Z) (s : Store) :
  0 <= a -> 0 <= b ->
  train self (a + b) s = (train self a ;;; train self b) s.
Proof.
  intros Ha Hb. unfold train. rewrite Z2Nat.inj_add by done.
  apply repeat_add.
Qed.

(** ** Relations between the start, the trace and the end of a run *)

Section TraceRelation.
Variable T : Store -> list Effect -> Store -> Prop.
Hypothesis T_refl : forall s, T s [] s.
Hypothesis T_trans : forall s e1 s1 e2 s2,
  T s e1 s1 -> T s1 e2 s2 -> T s (e1 ++ e2) s2.

Lemma obeys_ret {A} (a : A) : obeys T (ret a).
Proof. intros s. apply T_refl. Qed.

Lemma obeys_bind {A C} (m : M A) (f : A -> M C) :
  obeys T m -> (forall a, obeys T (f a)) -> obeys T (bind m f).
Proof.
  intros Hm Hf s. destruct (result (m s)) as [e|a] eqn:E.
  - destruct (bind_inl m f s e E) as (_ & -> & ->). apply Hm.
  - destruct (bind_inr m f s a E) as (_ & -> & ->).
    eapply T_trans; [apply Hm | apply Hf].
Qed.

Lemma obeys_for_each {A} (l : list A) (body : A -> M unit) :
  (forall x, obeys T (body x)) -> obeys T (for_each l body).
Proof.
  intros H. induction l as [|x l IH]; simpl; [apply obeys_ret|].
  apply obeys_bind; auto.
Qed.

Lemma obeys_repeat (n : nat) (body : M unit) :
  obeys T body -> obeys T (repeat_ n body).
Proof.
  intros H. induction n as [|n IH]; simpl; [apply obeys_ret|].
  apply obeys_bind; auto.
Qed.

Lemma obeys_py_mod a b : obeys T (py_mod a b).
Proof. intros s. unfold py_mod. case_decide; apply T_refl. Qed.

Lemma obeys_evaluate self :
  (forall ds_name h x, obeys T (eval_trainer ds_name h x)) ->
  obeys T (evaluate self).
Proof.
  intros H. unfold evaluate. case_match; [|apply obeys_ret].
  apply obeys_bind; [intros s; apply T_refl|]. intros n.
  apply obeys_bind; [apply obeys_py_mod|]. intros r.
  case_decide; [|apply obeys_ret].
  apply obeys_for_each. intros [ds_name h]. by apply obeys_for_each.
Qed.

(** A relation kept by the two loop bodies and by the bump of the step
    counter is kept by [train]. *)
Lemma obeys_train self :
  (forall n s, T s [] (set_step n s)) ->
  (forall x, obeys T (train_trainer self x)) ->
  (forall ds_name h x, obeys T (eval_trainer ds_name h x)) ->
  forall n, obeys T (train self n).
Proof.
  intros Hset Htr Hev n. unfold train. apply obeys_repeat. unfold train_step.
  apply obeys_bind; [intros s; apply T_refl|]. intros k.
  apply obeys_bind; [intros s; apply Hset|]. intros _.
  apply obeys_bind; [by apply obeys_for_each|]. intros _.
  by apply obeys_evaluate.
Qed.

End TraceRelation.

(** ** Keys and batches *)

Lemma advance_add (a b : nat) (r : PRNGSequence) :
  advance (a + b) r =
  let '(ks, r') := advance a r in
  let '(ks', r'') := advance b r' in (ks ++ ks', r'').
Proof.
  revert r. induction a as [|a IH]; intros r; simpl.
  - by destruct (advance b r).
  - destruct (prng_next r) as [k r1]. rewrite IH.
    destruct (advance a r1) as [ks r2]. by destruct (advance b r2).
Qed.

Lemma fed_trans s e1 s1 e2 s2 : fed s e1 s1 -> fed s1 e2 s2 -> fed s (e1 ++ e2) s2.
Proof.
  unfold fed, used_keys, drawn_keys, used_batches, drawn_batches.
  intros [H1 H2] [H3 H4]. rewrite !omap_app. by rewrite H1, H2, H3, H4.
Qed.

Lemma streamed_trans s e1 s1 e2 s2 :
  streamed s e1 s1 -> streamed s1 e2 s2 -> streamed s (e1 ++ e2) s2.
Proof.
  unfold streamed, drawn_keys. intros H1 H2.
  rewrite omap_app, length_app, advance_add, H1, H2. done.
Qed.

(** X9. Whatever [train] does, and whether it returns or raises: the keys
    handed to the losses (by SGD steps and evaluations, in order) are exactly
    the keys drawn from the shared stream, so each drawn key feeds one loss
    evaluation; the drawn keys are the next keys of the stream in order, and
    the stream is left advanced by exactly that many draws. *)
Theorem train_keys (self : MultilossExperiment) (n : Z) (s : Store) :
  let o := train self n s in
  used_keys (effects o) = drawn_keys (effects o) /\
  advance (length (drawn_keys (effects o))) (rng s) =
    (drawn_keys (effects o), rng (final o)).
Proof.
  simpl. split.
  - apply (obeys_train fed); try done.
    + apply fed_trans.
    + intros [j t] s'. run; done.
    + intros ds_name h [j t] s'. run; done.
  - apply (obeys_train streamed); try done.
    + apply streamed_trans.
    + intros [j t] s'. unfold streamed. run; try done.
      all: match goal with H : prng_next _ = _ |- _ => by rewrite H end.
    + intros ds_name h [j t] s'. unfold streamed. run; try done.
      all: match goal with H : prng_next _ = _ |- _ => by rewrite H end.
Qed.

(** X10. Whatever [train] does: the batches handed to the losses are
    exactly the batches drawn from the datasets, in order; no batch is drawn
    and dropped, none is used twice. *)
Theorem train_batches (self : MultilossExperiment) (n : Z) (s : Store) :
  used_batches (effects (train self n s)) =
  drawn_batches (effects (train self n s)).
Proof.
  apply (obeys_train fed); try done.
  - apply fed_trans.
  - intros [j t] s'. run; done.
  - intros ds_name h [j t] s'. run; done.
Qed.

(** ** Exceptions *)






(** ** What changes the training state *)

(** X12. If no trainer is scheduled at any of the steps a call of [train]
    runs, the training state after the call is the state before it and no
    SGD step is run, even though evaluation rounds may have taken place:
    evaluation never changes the training state. *)
Theorem train_nothing_scheduled (self : MultilossExperiment) (n : Z)
    (s : Store) :
  (forall j t k, pure_trainers self !! j = Some t ->
     step s < k <= step s + n -> should_train t k = false) ->
  state (final (train self n s)) = state s /\
  Forall not_sgd_step (effects (train self n s)).
Proof.
  intros Hidle. unfold train.
  destruct (repeat_train_step_inv self (fun s' => state s' = state s)
    not_sgd_step
    (fun k => forall j t, pure_trainers self !! j = Some t ->
                should_train t k = false))
    with (n := Z.to_nat n) (s := s) as (H1 & H2 & _); auto.
  - intros k j t Hgood Hj s' [Hs' Hst].
    rewrite train_trainer_idle by (rewrite Hs'; eauto).
    simpl. split; [done|constructor].
  - intros k _. apply evaluate_frame.
  - intros k Hk j t Hj. apply (Hidle j t k Hj). lia.
Qed.

(** X13. Every SGD step that [train] runs is for a trainer of the list
    that [should_train] schedules at one of the steps of the call. *)
Theorem train_sgd_scheduled (self : MultilossExperiment) (n : Z) (s : Store)
    (i : nat) (batch : Batch) (key : RngKey) :
  SgdStep i batch key ∈ effects (train self n s) ->
  exists t k, pure_trainers self !! i = Some t /\
              step s < k <= step s + n /\ should_train t k = true.
Proof.
  intros Hin. unfold train in Hin.
  destruct (repeat_train_step_inv self (fun _ => True)
    (scheduled_sgd self (step s) (step s + Z.of_nat (Z.to_nat n)))
    (fun k => step s < k <= step s + Z.of_nat (Z.to_nat n)))
    with (n := Z.to_nat n) (s := s) as (_ & H & _); auto.
  - intros k j t Hgood Hj s' [Hs' _].
    destruct (train_trainer_shape self j t s') as (H1 & _ & H2).
    split; [split; [congruence|done]|].
    destruct (should_train t (step s')) eqn:Est.
    + eapply Forall_impl; [exact H2|]. intros []; simpl; try done.
      intros ->. exists t, k. subst k. done.
    + rewrite train_trainer_idle by done. constructor.
  - intros k _ s' [Hs' _].
    destruct (evaluate_frame self k (state s') s') as [[H1 _] H2]; [done|].
    split; [done|]. eapply Forall_impl; [exact H2|]. by intros [].
  - eapply Forall_forall in H; [|exact Hin]. simpl in H.
    destruct H as (t & k & Ht & Hk & Hs). exists t, k.
    split; [done|]. split; [lia|done].
Qed.

(** ** The logging schedule *)

Lemma imap_pair_bind_list {A T} (f : A -> list T) (g : nat -> nat) (l : list A) :
  imap (fun j x => (g j, x)) l ≫= (fun '(_, x) => f x) = l ≫= f.
Proof.
  revert g. induction l as [|x l IH]; intros g; [done|].
  rewrite imap_cons. simpl. f_equal. apply (IH (g ∘ S)).
Qed.

Lemma enumerate_bind_list {A T} (f : A -> list T) (l : list A) :
  enumerate l ≫= (fun '(_, x) => f x) = l ≫= f.
Proof. apply (imap_pair_bind_list f id l). Qed.

Lemma train_log_app (l1 l2 : list Effect) :
  train_log (l1 ++ l2) = train_log l1 ++ train_log l2.
Proof. apply omap_app. Qed.

(** The loop body for one trainer, when it returns, wrote the record due. *)
Lemma train_trainer_train_log self j t s :
  result (train_trainer self (j, t) s) = inr tt ->
  train_log (effects (train_trainer self (j, t) s)) =
  if should_train t (step s) &&
     bool_decide (step s mod _train_log_freq self = 0)
  then [train_tags (step s) t] else [].
Proof.
  run; intros Hr; try done;
    repeat match goal with
    | H : bool_decide _ = true |- _ => apply bool_decide_eq_true in H
    | H : bool_decide _ = false |- _ => apply bool_decide_eq_false in H
    end; try done.
  - unfold tags, train_tags. by lookup_dict.
  - exfalso.
    match goal with H : is_train_record _ = false |- _ =>
      unfold is_train_record in H; revert H end.
    by lookup_dict.
Qed.

(** The evaluation block writes no training record. *)
Lemma evaluate_train_log self s : train_log (effects (evaluate self s)) = [].
Proof.
  apply omap_all_None.
  apply (evaluate_preserves self (fun _ => True)); [|done].
  intros ds_name h [j t] _ _ s' _. split; [done|].
  destruct (eval_trainer_shape ds_name h j t s') as (_ & _ & _ & H & _).
  eapply Forall_impl; [exact H|]. intros []; simpl; try done.
  unfold tags, eval_tags, is_train_record. intros Ht. simplify_eq.
  match goal with H : _ !! "sgd"%string = _ |- _ => by rewrite H end.
Qed.

Lemma train_step_train_log self s :
  result (train_step self s) = inr tt ->
  train_log (effects (train_step self s)) = trains_at self (step s + 1).
Proof.
  rewrite train_step_unfold. intros Hr.
  destruct (bind_success _ _ _ _ Hr) as ([] & E1 & E2).
  destruct (bind_inr _ (fun _ => evaluate self) _ tt E1) as (_ & _ & ->).
  rewrite train_log_app, evaluate_train_log, app_nil_r.
  unfold trains_at. rewrite <- enumerate_bind_list.
  apply (for_each_success (fun s' => step s' = step s + 1)); [|done..].
  intros [j t] s' _ Hs'. split.
  - by apply train_trainer_keeps_step.
  - intros Hok. rewrite <- Hs'. by apply train_trainer_train_log.
Qed.

Lemma repeat_train_log self n : forall s,
  result (repeat_ n (train_step self) s) = inr tt ->
  train_log (effects (repeat_ n (train_step self) s)) =
  trains_after self (step s) n.
Proof.
  induction n as [|n IH]; intros s Hr; simpl in *; [done|].
  destruct (bind_success _ _ _ _ Hr) as ([] & E1 & E2).
  destruct (bind_inr _ (fun _ => repeat_ n (train_step self)) _ tt E1)
    as (_ & _ & ->).
  rewrite train_log_app, (train_step_train_log self s E1), (IH _ E2).
  by rewrite train_step_step.
Qed.

(** X14. A call of [train] that returns has written exactly the training
    records due: at each step it ran, in order, one record per trainer that
    [should_train] schedules at that step, in list order, if the step is a
    multiple of [train_log_freq], and none otherwise; each is tagged
    ['dataset': 'train'], the step, ['sgd': True] and the trainer's name. *)
Theorem train_record_schedule (self : MultilossExperiment) (n : Z)
    (s : Store) :
  result (train self n s) = inr tt ->
  train_log (effects (train self n s)) =
  trains_after self (step s) (Z.to_nat n).
Proof. apply repeat_train_log. Qed.

(** X15. A call of [train] that returns has written exactly the evaluation
    records due: at each step it ran that is a multiple of [eval_log_freq],
    if the evaluation mapping is not empty, one record per evaluation dataset
    (in the mapping's order) and trainer (in list order), tagged with the
    dataset's name, the step, ['sgd': False] and the trainer's name; every
    trainer is evaluated, scheduled or not. *)
Theorem eval_record_schedule (self : MultilossExperiment) (n : Z)
    (s : Store) :
  result (train self n s) = inr tt ->
  eval_log (effects (train self n s)) =
  evals_after self (step s) (Z.to_nat n).
Proof. apply repeat_eval_log. Qed.

(** X16. The record written by one evaluation holds under ["loss"] the
    loss of the trainer's [pure_loss] at the current parameters, the batch
    drawn from the evaluation dataset and the key drawn from the shared
    stream, whatever the raw metrics held under that key; and the evaluation
    leaves the training state and the step counter as they were. *)
Theorem eval_record_loss (ds_name : string) (h : Handle) (j : nat)
    (t : _PureTrainer) (s : Store) (r : LossMetrics) :
  LoggerWrite r ∈ effects (eval_trainer ds_name h (j, t) s) ->
  exists batch key,
    effects (eval_trainer ds_name h (j, t) s) =
      [NextBatch h batch; NextKey key; EvalLoss j batch key; LoggerWrite r] /\
    r !! "loss"%string =
      Some (VArray (pure_loss t (params (state s)) batch key).1) /\
    tags r = eval_tags ds_name (step s) t /\
    state (final (eval_trainer ds_name h (j, t) s)) = state s /\
    step (final (eval_trainer ds_name h (j, t) s)) = step s.
Proof.
  intros Hr.
  destruct (eval_trainer_shape ds_name h j t s) as (H1 & H2 & _ & _ & H3).
  destruct (result (eval_trainer ds_name h (j, t) s)) as [e|[]] eqn:E.
  - exfalso. revert E Hr. run; intros E Hr; simplify_eq;
      repeat (apply elem_of_cons in Hr as [Hr|Hr]; [done|]);
      by apply elem_of_nil in Hr.
  - destruct (H3 eq_refl) as (batch & key & r' & He & Ht & Hl).
    rewrite He in Hr.
    repeat (apply elem_of_cons in Hr as [Hr|Hr]; simplify_eq).
    + by exists batch, key.
    + by apply elem_of_nil in Hr.
Qed.

(** X17. [predict] reads nothing but the parameters, so a call of [train]
    at whose steps no trainer is scheduled leaves every prediction as it was,
    although its evaluation rounds have drawn keys and batches. *)
Theorem predict_after_idle_train (self : MultilossExperiment) (n : Z)
    (s : Store) (inputs : Array) (seed : Z) :
  (forall j t k, pure_trainers self !! j = Some t ->
     step s < k <= step s + n -> should_train t k = false) ->
  result (predict self inputs seed (final (train self n s))) =
  result (predict self inputs seed s) /\
  result (predict self inputs seed s) =
    inr (apply (enn self) (params (state s)) inputs
           (indexer (enn self) (PRNGKey seed))).
Proof.
  intros Hidle. destruct (train_nothing_scheduled self n s Hidle) as [H _].
  unfold predict, bind, gets, ret, _forward. simpl. by rewrite H.
Qed.

End Properties.

(** * The properties on the concrete backend *)
Section Examples.
Import Toy.

Lemma toy_init (tlf : Z) :
  __init__ net [always; never] sgd 0 tlf (Some [("eval"%string, 2%positive)])
    2 heap = inr (experiment tlf, store0).
Proof. reflexivity. Qed.

(** C2 (the code at a concrete call).  With parameters 2, the batch 7 and
    the seed 0, [loss] returns the loss 196 together with the metrics of the
    first trainer's loss function: the metrics are not dropped. *)
Theorem C2_loss_returns_metrics :
  result (loss (experiment 1) 7 0 store0) =
    inr (196, {[ "loss"%string := VInt 999; "out"%string := VArray 14 ]}).
Proof.
  rewrite (loss_result (experiment 1) pure_always [pure_never]) by reflexivity.
  reflexivity.
Qed.

Lemma C4_step_counter_witness :
  step (final (train (experiment 1) 2 store0)) = step store0 + 2.
Proof.
  destruct (C4_step_counter (experiment 1) store0) as (_ & _ & H & _).
  apply H; [lia | vm_compute; reflexivity].
Defined.

Lemma first_record_written :
  LoggerWrite first_record ∈
    effects (train_trainer (experiment 1) (0%nat, pure_always) store1).
Proof. apply (list_elem_of_lookup_2 _ 3%nat). vm_compute. reflexivity. Defined.

Lemma C7_train_record_loss_witness :
  exists batch key,
    effects (train_trainer (experiment 1) (0%nat, pure_always) store1) =
      [NextBatch 1%positive batch; NextKey key; SgdStep 0 batch key;
       LoggerWrite first_record] /\
    (_sgd_step (experiment 1) (square_loss net) (state store1) batch key).2
      !! "loss"%string =
      Some (VArray (square_loss net (params (state store1)) batch key).1) /\
    first_record !! "loss"%string =
      Some (VArray (square_loss net (params (state store1)) batch key).1).
Proof.
  exact (C7_train_record_loss (experiment 1) 0 pure_always store1 first_record
           first_record_written).
Defined.

Lemma C6_eval_schedule_witness :
  eval_log (effects (train (experiment 1) 4 store0)) =
    [eval_tags "eval" 2 pure_always; eval_tags "eval" 2 pure_never;
     eval_tags "eval" 4 pure_always; eval_tags "eval" 4 pure_never].
Proof.
  apply (C6_eval_schedule (experiment 1) store0 pure_always pure_never
           "eval" 2%positive); reflexivity.
Defined.

Lemma C8_deterministic_states_witness :
  state_sequence (experiment 1) 3 store0 =
  state_sequence (experiment 3) 3 store0.
Proof.
  apply (C8_deterministic_states net [always; never] sgd 0
           (Some [("eval"%string, 2%positive)]) 2 1 3 heap
           (experiment 1) (experiment 3) store0 store0 3).
  - right. split; discriminate.
  - apply toy_init.
  - apply toy_init.
Defined.

Lemma C5_unscheduled_trainer_witness :
  (forall batch key, SgdStep 1 batch key ∉ effects (train separate 2 store0)) /\
  iterators (final (train separate 2 store0)) !! 3%positive =
    iterators store0 !! 3%positive /\
  (forall batch, NextBatch 3%positive batch ∉ effects (train separate 2 store0)) /\
  (forall r, LoggerWrite r ∈ effects (train separate 2 store0) ->
     is_train_record r = true ->
     r !! "trainer"%string <> Some (VStr "prior")).
Proof.
  destruct (C5_unscheduled_trainer separate store0 1 pure_prior 2)
    as (H1 & _ & H3 & H4); [reflexivity | reflexivity | reflexivity |].
  split; [exact H1|].
  assert (Hshare : forall (j : nat) (t' : _PureTrainer) (k : Z),
    pure_trainers separate !! j = Some t' ->
    dataset t' = dataset pure_prior \/ name t' = name pure_prior ->
    should_train t' k = false).
  { intros [|[|j]] t' k Hj Hd; simpl in Hj; simplify_eq; [|reflexivity].
    destruct Hd; discriminate. }
  destruct H3 as [H3 H3'].
  - intros j t' k Hj Hd _. apply (Hshare j t' k Hj). by left.
  - intros ds_name h Hin. apply list_elem_of_singleton in Hin. by simplify_eq.
  - split; [exact H3|]. split; [exact H3'|].
    apply H4. intros j t' k Hj Hd _. apply (Hshare j t' k Hj). by right.
Defined.

(** C5 (as stated) fails.  In [experiment 1] the second trainer is never
    scheduled, yet over two steps of [train]: the evaluation round of step 2
    draws the key 6 from the shared stream for its loss; the iterator it is
    bound to, shared with the first trainer, yields the batch 2; and the
    first trainer, which has the same default name, writes a training record
    bearing that name. *)
Lemma C5_counterexample :
  pure_trainers (experiment 1) !! 1%nat = Some pure_never /\
  step store0 = 0 /\
  (forall k, 1 <= k <= 2 -> should_train pure_never k = false) /\
  keys_for 1 (effects (train (experiment 1) 2 store0)) = [6] /\
  NextBatch (dataset pure_never) 2 ∈ effects (train (experiment 1) 2 store0) /\
  LoggerWrite first_record ∈ effects (train (experiment 1) 2 store0) /\
  is_train_record first_record = true /\
  first_record !! "trainer"%string = Some (VStr (name pure_never)) /\
  ~ never_involved (experiment 1) store0 1 pure_never 2.
Proof.
  assert (Hk : keys_for 1 (effects (train (experiment 1) 2 store0)) = [6])
    by (vm_compute; reflexivity).
  split; [reflexivity|]. split; [reflexivity|]. split; [reflexivity|].
  split; [exact Hk|].
  split; [apply (list_elem_of_lookup_2 _ 0%nat); vm_compute; reflexivity|].
  split; [apply (list_elem_of_lookup_2 _ 3%nat); vm_compute; reflexivity|].
  split; [reflexivity|]. split; [reflexivity|].
  intros (_ & Hnever & _). rewrite Hk in Hnever. discriminate.
Qed.

(** ** Instances of the further properties *)

Lemma init_store_witness :
  state store0 = {| params := 2; opt_state := 0 |} /\
  rng store0 = 2 /\
  step store0 = 0 /\
  iterators store0 !! 1%positive = Some [2; 3; 4; 5; 6; 7; 8; 9; 10; 11; 12] /\
  (forall h, h <> 1%positive -> iterators store0 !! h = heap !! h) /\
  pure_trainers (experiment 1) = _purify_trainers [always; never] net /\
  _eval_datasets (experiment 1) = Some [("eval"%string, 2%positive)] /\
  _eval_log_freq (experiment 1) = 2 /\
  _train_log_freq (experiment 1) = 1.
Proof.
  apply (init_store net always [never] sgd 0 1
           (Some [("eval"%string, 2%positive)]) 2 heap
           [1; 2; 3; 4; 5; 6; 7; 8; 9; 10; 11; 12]
           [2; 3; 4; 5; 6; 7; 8; 9; 10; 11; 12] 1 1 2 1 2
           (experiment 1) store0); reflexivity.
Defined.


Lemma train_log_freq_zero_witness :
  train_trainer (experiment 0) (0%nat, pure_always) store1 =
    {| result := inl ZeroDivisionError;
       final := {| rng := 3;
                   state := (_sgd_step (experiment 0) (pure_loss pure_always)
                               (state store1) 2 3).1;
                   step := step store1;
                   iterators :=
                     <[1%positive := [3; 4; 5; 6; 7; 8; 9; 10; 11; 12]]>
                       (iterators store1) |};
       effects := [NextBatch (dataset pure_always) 2; NextKey 3;
                   SgdStep 0 2 3] |}.
Proof.
  apply (train_log_freq_zero (experiment 0) 0 pure_always store1 2
           (<[1%positive := [3; 4; 5; 6; 7; 8; 9; 10; 11; 12]]>
              (iterators store1)) 3 3); reflexivity.
Defined.

Lemma eval_log_freq_zero_witness :
  evaluate zero_eval_freq store0 =
    {| result := inl ZeroDivisionError; final := store0; effects := [] |} /\
  (1 <= 3 -> result (train zero_eval_freq 3 store0) <> inr tt).
Proof. apply (eval_log_freq_zero zero_eval_freq 3 store0); reflexivity. Defined.

Lemma train_nonpositive_witness :
  train (experiment 1) (-3) store0 = ret tt store0.
Proof. apply (train_nonpositive (experiment 1) (-3) store0). lia. Defined.

Lemma train_add_witness :
  train (experiment 1) (1 + 2) store0 =
  (train (experiment 1) 1 ;;; train (experiment 1) 2) store0.
Proof. apply (train_add (experiment 1) 1 2 store0); lia. Defined.


Lemma train_nothing_scheduled_witness :
  state (final (train idle_only 2 store0)) = state store0 /\
  Forall not_sgd_step (effects (train idle_only 2 store0)).
Proof.
  apply (train_nothing_scheduled idle_only 2 store0).
  intros [|[|j]] t k Hj _; simpl in Hj; simplify_eq; reflexivity.
Defined.

Lemma train_sgd_scheduled_witness :
  exists t k, pure_trainers (experiment 1) !! 0%nat = Some t /\
              step store0 < k <= step store0 + 2 /\ should_train t k = true.
Proof.
  apply (train_sgd_scheduled (experiment 1) 2 store0 0 2 3).
  apply (list_elem_of_lookup_2 _ 2%nat). vm_compute. reflexivity.
Defined.

Lemma train_record_schedule_witness :
  train_log (effects (train (experiment 3) 9 store0)) =
    [train_tags 3 pure_always; train_tags 6 pure_always;
     train_tags 9 pure_always].
Proof.
  apply (train_record_schedule (experiment 3) 9 store0).
  vm_compute. reflexivity.
Defined.

Lemma eval_record_schedule_witness :
  eval_log (effects (train idle_only 2 store0)) =
    [eval_tags "eval" 1 pure_never; eval_tags "eval" 1 pure_prior;
     eval_tags "eval" 2 pure_never; eval_tags "eval" 2 pure_prior].
Proof.
  apply (eval_record_schedule idle_only 2 store0). reflexivity.
Defined.

Lemma eval_record_written :
  LoggerWrite eval_record ∈
    effects (eval_trainer "eval" 2%positive (0%nat, pure_always) store1).
Proof. apply (list_elem_of_lookup_2 _ 3%nat). vm_compute. reflexivity. Defined.

Lemma eval_record_loss_witness :
  exists batch key,
    effects (eval_trainer "eval" 2%positive (0%nat, pure_always) store1) =
      [NextBatch 2%positive batch; NextKey key; EvalLoss 0 batch key;
       LoggerWrite eval_record] /\
    eval_record !! "loss"%string =
      Some (VArray (pure_loss pure_always (params (state store1)) batch key).1) /\
    tags eval_record = eval_tags "eval" (step store1) pure_always /\
    state (final (eval_trainer "eval" 2%positive (0%nat, pure_always) store1))
      = state store1 /\
    step (final (eval_trainer "eval" 2%positive (0%nat, pure_always) store1))
      = step store1.
Proof.
  exact (eval_record_loss "eval" 2%positive 0 pure_always store1 eval_record
           eval_record_written).
Defined.

Lemma predict_after_idle_train_witness :
  result (predict idle_only 5 7 (final (train idle_only 2 store0))) =
  result (predict idle_only 5 7 store0) /\
  result (predict idle_only 5 7 store0) =
    inr (apply (enn idle_only) (params (state store0)) 5
           (indexer (enn idle_only) (PRNGKey 7))).
Proof.
  apply (predict_after_idle_train idle_only 2 store0 5 7).
  intros [|[|j]] t k Hj _; simpl in Hj; simplify_eq; reflexivity.
Defined.

End Examples.
